(** * DenseNet example (DensNet.cpp): shape-level model and its properties

    The program arranges libtorch layers into a DenseNet and drives the
    usual train / validate / test loop.  The development below embeds

    - the layer primitives of libtorch that the program calls, at the level
      of tensor shapes and of the symbolic history of a tensor (which
      operations produced it);
    - [conv_block], [DenseBlock], [transition_block] and [DensNetImpl]
      (constructors, forward passes, the weight initialisation pass);
    - [Set_Class_Names];
    - the control flow, counters and [float] arithmetic of [main]. *)

From Stdlib Require Import ZArith String Ascii List Bool Lia.
From Stdlib Require Import Floats.SpecFloat.
From stdpp Require Import base tactics option list list_numbers.

Local Open Scope string_scope.
Local Open Scope list_scope.
Local Open Scope Z_scope.

(** ** Machine integers *)

(** [int64_t] values are kept in [Z]; the result of an arithmetic operation
    is brought back into the 64-bit two's complement range. *)
Definition int64 (z : Z) : Z := (z + 2 ^ 63) mod 2 ^ 64 - 2 ^ 63.
Definition add64 (a b : Z) : Z := int64 (a + b).
Definition mul64 (a b : Z) : Z := int64 (a * b).

(** [size_t] values: unsigned, 64 bits, wrapping. *)
Definition size_t (z : Z) : Z := z mod 2 ^ 64.
Definition incr (n : Z) : Z := size_t (n + 1).

(** [(double) n] for an [int64_t] n: the nearest binary64 number, ties to
    even.  The result is an integer, so it is kept in [Z]: integers of
    magnitude below 2^53 are exact, larger ones keep their 53 leading bits. *)
Definition int64_to_double (n : Z) : Z :=
  let a := Z.abs n in
  if a <? 2 ^ 53 then n
  else
    let k := Z.log2 a - 52 in
    let q := a / 2 ^ k in
    let r := a mod 2 ^ k in
    let half := 2 ^ (k - 1) in
    let q' := if r <? half then q
              else if half <? r then q + 1
              else if Z.even q then q else q + 1 in
    Z.sgn n * (q' * 2 ^ k).

(** [static_cast<int64_t>(num_channels / 2.0)]: the channel count is
    converted to [double], divided by [2.0] (exact in binary floating
    point) and converted back with truncation toward zero. *)
Definition halve (num_channels : Z) : Z :=
  Z.quot (int64_to_double num_channels) 2.

(** ** The libtorch primitives the program uses *)

Module torch.

(** [torch::nn::Conv2dOptions], called [Options] in the program; dilation
    1, groups 1 and the bias are the defaults and are never changed. *)
Record Conv2dOptions := mkConv2dOptions {
  in_channels : Z;
  out_channels : Z;
  kernel_size : Z;
  stride : Z;
  padding : Z
}.

(** [Options(in_channels, out_channels, kernel_size)], then the setters
    [.stride(s)] and [.padding(p)]. *)
Definition Options (i o k : Z) : Conv2dOptions :=
  {| in_channels := i; out_channels := o; kernel_size := k;
     stride := 1; padding := 0 |}.
Definition with_stride (s : Z) (o : Conv2dOptions) : Conv2dOptions :=
  {| in_channels := in_channels o; out_channels := out_channels o;
     kernel_size := kernel_size o; stride := s; padding := padding o |}.
Definition with_padding (p : Z) (o : Conv2dOptions) : Conv2dOptions :=
  {| in_channels := in_channels o; out_channels := out_channels o;
     kernel_size := kernel_size o; stride := stride o; padding := p |}.

(** The history of a tensor: the operations that produced it, with their
    hyper-parameters.  Numeric contents are not modelled. *)
Inductive expr : Type :=
| Input (id : nat)
| BatchNormOp (training : bool) (num_features : Z) (x : expr)
| ReluOp (x : expr)
| ConvOp (o : Conv2dOptions) (x : expr)
| MaxPoolOp (kernel stride padding dilation : Z) (ceil_mode : bool) (x : expr)
| AvgPoolOp (kernel stride : Z) (x : expr)
| CatOp (x y : expr) (dim : Z)
| AdaptiveAvgPoolOp (oh ow : Z) (x : expr)
| ViewOp (shape : list Z) (x : expr)
| LinearOp (in_features out_features : Z) (x : expr).

Record Tensor := mkTensor { sizes : list Z; history : expr }.

(** [Tensor::size(0)]. *)
Definition size0 (x : Tensor) : Z := default 0 (head (sizes x)).

Definition numel (x : Tensor) : Z := foldr Z.mul 1 (sizes x).

(** Output length of a sliding window along one dimension, rounding
    down (libtorch's [pooling_output_shape] with [ceil_mode = false], and
    the convolution output size). *)
Definition window_out (i k s p d : Z) : Z :=
  (i + 2 * p - d * (k - 1) - 1) / s + 1.

(** [at::batch_norm] as called by [BatchNorm2dImpl::forward]: a 4-D input
    whose channel dimension is [num_features]; in training mode more than
    one value per channel is required. *)
Definition batch_norm (training : bool) (num_features : Z) (x : Tensor)
  : option Tensor :=
  match sizes x with
  | [n; c; h; w] =>
      if (c =? num_features) && negb (training && (n * h * w =? 1))
      then Some (mkTensor [n; c; h; w] (BatchNormOp training num_features (history x)))
      else None
  | _ => None
  end.

Definition relu (x : Tensor) : option Tensor :=
  Some (mkTensor (sizes x) (ReluOp (history x))).

(** [Conv2dImpl::forward]: 4-D input with [in_channels] channels; the padded
    input must not be smaller than the kernel.  The options themselves must
    name positive channel counts. *)
Definition conv2d (o : Conv2dOptions) (x : Tensor) : option Tensor :=
  match sizes x with
  | [n; c; h; w] =>
      if (0 <? in_channels o) && (0 <? out_channels o)
         && (c =? in_channels o)
         && (kernel_size o <=? h + 2 * padding o)
         && (kernel_size o <=? w + 2 * padding o)
      then Some (mkTensor
                   [n; out_channels o;
                    window_out h (kernel_size o) (stride o) (padding o) 1;
                    window_out w (kernel_size o) (stride o) (padding o) 1]
                   (ConvOp o (history x)))
      else None
  | _ => None
  end.

(** [torch::max_pool2d(x, kernel, stride, padding, dilation, ceil_mode)]
    with [ceil_mode = false]; the padding may be at most half the kernel and
    the output may not be empty. *)
Definition max_pool2d (k s p d : Z) (ceil_mode : bool) (x : Tensor)
  : option Tensor :=
  match sizes x with
  | [n; c; h; w] =>
      let oh := window_out h k s p d in
      let ow := window_out w k s p d in
      if negb ceil_mode && (2 * p <=? k) && (1 <=? oh) && (1 <=? ow)
      then Some (mkTensor [n; c; oh; ow] (MaxPoolOp k s p d ceil_mode (history x)))
      else None
  | _ => None
  end.

(** [AvgPool2dImpl::forward] with the given kernel and stride, no padding. *)
Definition avg_pool2d (k s : Z) (x : Tensor) : option Tensor :=
  match sizes x with
  | [n; c; h; w] =>
      let oh := window_out h k s 0 1 in
      let ow := window_out w k s 0 1 in
      if (1 <=? oh) && (1 <=? ow)
      then Some (mkTensor [n; c; oh; ow] (AvgPoolOp k s (history x)))
      else None
  | _ => None
  end.

(** [torch::cat({x, y}, 1)] on two 4-D tensors: every dimension but the
    channel one must agree; the channel counts add up. *)
Definition cat2_dim1 (x y : Tensor) : option Tensor :=
  match sizes x, sizes y with
  | [n; c; h; w], [n'; c'; h'; w'] =>
      if (n =? n') && (h =? h') && (w =? w')
      then Some (mkTensor [n; c + c'; h; w] (CatOp (history x) (history y) 1))
      else None
  | _, _ => None
  end.

(** [torch::adaptive_avg_pool2d(x, {1, 1})]: the non-batch dimensions of
    the input must not be empty. *)
Definition adaptive_avg_pool2d (oh ow : Z) (x : Tensor) : option Tensor :=
  match sizes x with
  | [n; c; h; w] =>
      if (1 <=? c) && (1 <=? h) && (1 <=? w)
      then Some (mkTensor [n; c; oh; ow] (AdaptiveAvgPoolOp oh ow (history x)))
      else None
  | _ => None
  end.

(** [x.view({n, -1})]: the second dimension is inferred from the number of
    elements; libtorch refuses when [n] is zero (the inferred dimension
    would be ambiguous) or does not divide the number of elements. *)
Definition view_rows (n : Z) (x : Tensor) : option Tensor :=
  if (0 <? n) && (numel x mod n =? 0)
  then Some (mkTensor [n; numel x / n] (ViewOp [n; -1] (history x)))
  else None.

(** [LinearImpl::forward] on a 2-D input. *)
Definition linear (in_features out_features : Z) (x : Tensor)
  : option Tensor :=
  match sizes x with
  | [n; f] =>
      if (f =? in_features) && (0 <=? out_features)
      then Some (mkTensor [n; out_features]
                   (LinearOp in_features out_features (history x)))
      else None
  | _ => None
  end.

End torch.

Import torch.

(** ** Modules *)

(** How a parameter tensor was last initialised. *)
Inductive init : Type :=
| framework_default
| kaiming_normal
| constant (c : Z).

(** The dynamic type of a module.  [conv_block], [DenseBlock] and
    [transition_block] derive from [SequentialImpl]. *)
Inductive kind : Type :=
| Conv2dImpl (o : Conv2dOptions)
| BatchNorm2dImpl (num_features : Z)
| ReLUImpl
| FunctionalImpl_max_pool2d (kernel stride padding dilation : Z) (ceil_mode : bool)
| AvgPool2dImpl (kernel stride : Z)
| LinearImpl (in_features out_features : Z)
| SequentialImpl
| conv_blockT
| DenseBlockT
| transition_blockT.

(** A module owns its training flag, its named parameters and its
    registered children, in registration order. *)
#[warnings="-register-all"] Inductive Module : Type :=
  mkModule (k : kind) (is_training : bool)
           (parameters : list (string * init)) (children : list Module).

Definition kind_of (m : Module) : kind :=
  match m with mkModule k _ _ _ => k end.
Definition is_training (m : Module) : bool :=
  match m with mkModule _ t _ _ => t end.
Definition parameters (m : Module) : list (string * init) :=
  match m with mkModule _ _ ps _ => ps end.
Definition children (m : Module) : list Module :=
  match m with mkModule _ _ _ ms => ms end.

(** A freshly constructed module is in training mode and its parameters
    carry the framework's default initialisation. *)
Definition Conv2d (o : Conv2dOptions) : Module :=
  mkModule (Conv2dImpl o) true
    [("weight", framework_default); ("bias", framework_default)] [].
Definition BatchNorm2d (num_features : Z) : Module :=
  mkModule (BatchNorm2dImpl num_features) true
    [("weight", framework_default); ("bias", framework_default)] [].
Definition ReLU : Module := mkModule ReLUImpl true [] [].
Definition Functional_max_pool2d (k s p d : Z) (ceil_mode : bool) : Module :=
  mkModule (FunctionalImpl_max_pool2d k s p d ceil_mode) true [] [].
Definition AvgPool2d (k s : Z) : Module := mkModule (AvgPool2dImpl k s) true [] [].
Definition Linear (i o : Z) : Module :=
  mkModule (LinearImpl i o) true
    [("weight", framework_default); ("bias", framework_default)] [].

(** An empty container of the given dynamic type. *)
Definition empty_container (k : kind) : Module := mkModule k true [] [].
Definition Sequential : Module := empty_container SequentialImpl.

(** [SequentialImpl::push_back]. *)
Definition push_back (self m : Module) : Module :=
  match self with
  | mkModule k t ps ms => mkModule k t ps (ms ++ [m])
  end.

(** *** Forward passes *)

(** [forward] dispatches on the dynamic type.  A container runs
    [SequentialImpl::forward], which refuses an empty container and
    otherwise feeds each child with the output of the previous one;
    [conv_block::forward] concatenates its input with that result. *)
Fixpoint forward (m : Module) (x : Tensor) {struct m} : option Tensor :=
  match m with
  | mkModule k training _ ms =>
      let Sequential_forward :=
        match ms with
        | [] => None
        | _ =>
            (fix chain (ms : list Module) (acc : Tensor) : option Tensor :=
               match ms with
               | [] => Some acc
               | m' :: ms' =>
                   match forward m' acc with
                   | Some y => chain ms' y
                   | None => None
                   end
               end) ms x
        end in
      match k with
      | Conv2dImpl o => conv2d o x
      | BatchNorm2dImpl num_features => batch_norm training num_features x
      | ReLUImpl => relu x
      | FunctionalImpl_max_pool2d k s p d c => max_pool2d k s p d c x
      | AvgPool2dImpl k s => avg_pool2d k s x
      | LinearImpl i o => linear i o x
      | SequentialImpl | DenseBlockT | transition_blockT => Sequential_forward
      | conv_blockT =>
          match Sequential_forward with
          | Some Y => cat2_dim1 x Y
          | None => None
          end
      end
  end.

(** The chain of [SequentialImpl::forward] on a list of modules. *)
Fixpoint chain (ms : list Module) (acc : Tensor) : option Tensor :=
  match ms with
  | [] => Some acc
  | m' :: ms' =>
      match forward m' acc with
      | Some y => chain ms' y
      | None => None
      end
  end.

Definition Sequential_forward (ms : list Module) (x : Tensor) : option Tensor :=
  match ms with
  | [] => None
  | _ => chain ms x
  end.

(** [Module::train(on)]: sets the flag of the module and of every
    descendant. *)
Fixpoint train (on : bool) (m : Module) : Module :=
  match m with
  | mkModule k _ ps ms => mkModule k on ps (map (train on) ms)
  end.

(** *** The blocks of the program *)

Definition conv_block (input_channels num_channels : Z) : Module :=
  let self := empty_container conv_blockT in
  let self := push_back self (BatchNorm2d input_channels) in
  let self := push_back self ReLU in
  let self := push_back self
    (Conv2d (with_padding 1 (Options input_channels num_channels 3))) in
  self.

(** The constructor's loop [for (i = 0; i < num_convs; i++)]. *)
Definition DenseBlock (num_convs input_channels num_channels : Z) : Module :=
  foldl
    (fun self i =>
       push_back self
         (conv_block (add64 (mul64 num_channels i) input_channels) num_channels))
    (empty_container DenseBlockT)
    (seqZ 0 num_convs).

Definition transition_block (input_channels num_channels : Z) : Module :=
  let self := empty_container transition_blockT in
  let self := push_back self (BatchNorm2d input_channels) in
  let self := push_back self ReLU in
  let self := push_back self
    (Conv2d (Options input_channels num_channels 1)) in
  let self := push_back self (AvgPool2d 2 2) in
  self.

(** *** DensNetImpl *)

Record DensNetImpl := mkDensNet {
  classifier : Module;
  num_channels : Z;
  growth_rate : Z;
  num_convs_in_dense_blocks : list Z;
  features : Module;
  net_is_training : bool
}.

(** The constructor's loop over [num_convs_in_dense_blocks]: [rest] holds
    the entries from index [i] on, [size] is the length of the whole
    vector.  [i != size - 1] is evaluated in [size_t]; the [int] counter
    [i] stays far below its range. *)
Fixpoint dense_blocks_loop (growth_rate size i : Z) (rest : list Z)
    (features : Module) (num_channels : Z) {struct rest} : Module * Z :=
  match rest with
  | [] => (features, num_channels)
  | num_convs :: rest' =>
      let features :=
        push_back features (DenseBlock num_convs num_channels growth_rate) in
      let num_channels := add64 num_channels (mul64 num_convs growth_rate) in
      if negb (i =? size_t (size - 1)) then
        let features :=
          push_back features
            (transition_block num_channels (halve num_channels)) in
        let num_channels := halve num_channels in
        dense_blocks_loop growth_rate size (i + 1) rest' features num_channels
      else
        dense_blocks_loop growth_rate size (i + 1) rest' features num_channels
  end.

(** [init::constant_] and [init::kaiming_normal_] on the parameter of that
    name. *)
Fixpoint set_parameter (name : string) (v : init)
    (ps : list (string * init)) : list (string * init) :=
  match ps with
  | [] => []
  | (n, old) :: ps' =>
      if String.eqb n name then (n, v) :: ps'
      else (n, old) :: set_parameter name v ps'
  end.

(** The body of the initialisation loop, for one module: the first
    [dynamic_cast] that succeeds decides. *)
Definition official_init (k : kind) (ps : list (string * init))
  : list (string * init) :=
  match k with
  | Conv2dImpl _ => set_parameter "weight" kaiming_normal ps
  | BatchNorm2dImpl _ =>
      set_parameter "bias" (constant 0)
        (set_parameter "weight" (constant 1) ps)
  | LinearImpl _ _ => set_parameter "bias" (constant 0) ps
  | _ => ps
  end.

(** [modules()] of a module, itself included: the module and then the
    modules of each child, in registration order. *)
Fixpoint modules (m : Module) : list Module :=
  match m with
  | mkModule k t ps ms => m :: flat_map modules ms
  end.

(** Running a loop body that rewrites parameters on every entry of
    [modules()]: each module of the tree is visited once and updated in
    place. *)
Fixpoint for_each_module (body : kind -> list (string * init) -> list (string * init))
    (m : Module) : Module :=
  match m with
  | mkModule k t ps ms => mkModule k t (body k ps) (map (for_each_module body) ms)
  end.

(** The constructor up to the registration of [classifier], with the
    member initialisers as arguments. *)
Definition DensNetImpl_build (num_channels growth_rate : Z)
    (num_convs_in_dense_blocks : list Z) (num_classes : Z) : DensNetImpl :=
  let features := Sequential in
  let features := push_back features
    (Conv2d (with_padding 3 (with_stride 2 (Options 3 64 7)))) in
  let features := push_back features (BatchNorm2d 64) in
  let features := push_back features ReLU in
  let features := push_back features (Functional_max_pool2d 3 2 1 1 false) in
  let '(features, num_channels) :=
    dense_blocks_loop growth_rate
      (Z.of_nat (length num_convs_in_dense_blocks)) 0
      num_convs_in_dense_blocks features num_channels in
  let features := push_back features (BatchNorm2d num_channels) in
  let classifier := Linear num_channels num_classes in
  {| classifier := classifier;
     num_channels := num_channels;
     growth_rate := growth_rate;
     num_convs_in_dense_blocks := num_convs_in_dense_blocks;
     features := features;
     net_is_training := true |}.

(** The end of the constructor: [for (auto& module : modules(false))]
    with the initialisation body.  [features] and [classifier] are the
    registered children. *)
Definition official_init_pass (self : DensNetImpl) : DensNetImpl :=
  {| classifier := for_each_module official_init (classifier self);
     num_channels := num_channels self;
     growth_rate := growth_rate self;
     num_convs_in_dense_blocks := num_convs_in_dense_blocks self;
     features := for_each_module official_init (features self);
     net_is_training := net_is_training self |}.

Definition DensNetImpl_init (num_channels growth_rate : Z)
    (num_convs_in_dense_blocks : list Z) (num_classes : Z) : DensNetImpl :=
  official_init_pass
    (DensNetImpl_build num_channels growth_rate num_convs_in_dense_blocks
       num_classes).

(** [DensNet(num_classes)]: the members start at 64, 32 and {4, 4, 4, 4}. *)
Definition DensNet (num_classes : Z) : DensNetImpl :=
  DensNetImpl_init 64 32 [4; 4; 4; 4] num_classes.

(** [modules(/*include_self=*/false)] of the network: [features] and
    [classifier] are its registered children. *)
Definition DensNet_modules (self : DensNetImpl) : list Module :=
  modules (features self) ++ modules (classifier self).

(** [relu_] works in place: afterwards [features] and [out] name the same
    tensor, whose sizes are unchanged. *)
Definition DensNet_forward (self : DensNetImpl) (x : Tensor) : option Tensor :=
  features ← forward (features self) x;
  out ← relu features;
  let features := out in
  out ← adaptive_avg_pool2d 1 1 out;
  out ← view_rows (size0 features) out;
  forward (classifier self) out.

(** [net->train()] and [net->eval()]. *)
Definition DensNet_train (on : bool) (self : DensNetImpl) : DensNetImpl :=
  {| classifier := train on (classifier self);
     num_channels := num_channels self;
     growth_rate := growth_rate self;
     num_convs_in_dense_blocks := num_convs_in_dense_blocks self;
     features := train on (features self);
     net_is_training := on |}.
Definition DensNet_eval (self : DensNetImpl) : DensNetImpl :=
  DensNet_train false self.

(** *** Vocabulary for the properties of the network *)

(** [forward] written with the top-level [chain]. *)
Definition forward_body (m : Module) (x : Tensor) : option Tensor :=
  match kind_of m with
  | Conv2dImpl o => conv2d o x
  | BatchNorm2dImpl num_features => batch_norm (is_training m) num_features x
  | ReLUImpl => relu x
  | FunctionalImpl_max_pool2d k s p d c => max_pool2d k s p d c x
  | AvgPool2dImpl k s => avg_pool2d k s x
  | LinearImpl i o => linear i o x
  | SequentialImpl | DenseBlockT | transition_blockT =>
      Sequential_forward (children m) x
  | conv_blockT => Y ← Sequential_forward (children m) x; cat2_dim1 x Y
  end.

Definition conv_block_history (training : bool) (cin cout : Z) (x : expr) : expr :=
  CatOp x
    (ConvOp (with_padding 1 (Options cin cout 3))
       (ReluOp (BatchNormOp training cin x)))
    1.

Definition transition_block_history (training : bool) (cin cout : Z) (x : expr)
  : expr :=
  AvgPoolOp 2 2
    (ConvOp (Options cin cout 1)
       (ReluOp (BatchNormOp training cin x))).

(** The history of the running tensor after the first [k] blocks. *)
Fixpoint dense_block_history (training : bool) (input_channels growth_rate : Z)
    (k : nat) (x : expr) : expr :=
  match k with
  | O => x
  | S k' =>
      conv_block_history training
        (input_channels + Z.of_nat k' * growth_rate) growth_rate
        (dense_block_history training input_channels growth_rate k' x)
  end.

(** The four modules in front of the dense blocks. *)
Definition stem : list Module :=
  [Conv2d (with_padding 3 (with_stride 2 (Options 3 64 7)));
   BatchNorm2d 64; ReLU; Functional_max_pool2d 3 2 1 1 false].

(** The children of [features] for four dense blocks, as the constructor
    registers them, and the channel count it ends with. *)
Definition features_of (c0 g n1 n2 n3 n4 : Z) : list Module * Z :=
  let c1 := c0 + n1 * g in
  let c2 := halve c1 + n2 * g in
  let c3 := halve c2 + n3 * g in
  let c4 := halve c3 + n4 * g in
  (stem ++
   [DenseBlock n1 c0 g; transition_block c1 (halve c1);
    DenseBlock n2 (halve c1) g; transition_block c2 (halve c2);
    DenseBlock n3 (halve c2) g; transition_block c3 (halve c3);
    DenseBlock n4 (halve c3) g;
    BatchNorm2d c4], c4).

(** The twelve children of [features] in [DensNet], before the
    initialisation pass. *)
Definition DensNet_features : list Module :=
  stem ++
  [DenseBlock 4 64 32; transition_block 192 96;
   DenseBlock 4 96 32; transition_block 224 112;
   DenseBlock 4 112 32; transition_block 240 120;
   DenseBlock 4 120 32;
   BatchNorm2d 248].

(** The history of the output of [features] on a 224 x 224 input. *)
Definition features_history (on : bool) (x : expr) : expr :=
  let x := MaxPoolOp 3 2 1 1 false
             (ReluOp (BatchNormOp on 64
                (ConvOp (with_padding 3 (with_stride 2 (Options 3 64 7))) x))) in
  let x := dense_block_history on 64 32 4 x in
  let x := transition_block_history on 192 96 x in
  let x := dense_block_history on 96 32 4 x in
  let x := transition_block_history on 224 112 x in
  let x := dense_block_history on 112 32 4 x in
  let x := transition_block_history on 240 120 x in
  let x := dense_block_history on 120 32 4 x in
  BatchNormOp on 248 x.

Definition logits_history (on : bool) (N num_classes : Z) (x : expr) : expr :=
  LinearOp 248 num_classes
    (ViewOp [N; -1]
       (AdaptiveAvgPoolOp 1 1 (ReluOp (features_history on x)))).

(** What the pass leaves in each kind of module. *)
Definition initialised (m : Module) : Prop :=
  match kind_of m with
  | Conv2dImpl _ =>
      parameters m = [("weight", kaiming_normal); ("bias", framework_default)]
  | BatchNorm2dImpl _ =>
      parameters m = [("weight", constant 1); ("bias", constant 0)]
  | LinearImpl _ _ =>
      parameters m = [("weight", framework_default); ("bias", constant 0)]
  | _ => parameters m = []
  end.

Definition kind_and_parameters (m : Module) : kind * list (string * init) :=
  (kind_of m, parameters m).

(** ** Set_Class_Names *)

(** How a call ends: it returns, it ends the process through [std::exit]
    after writing to [std::cerr], or an exception leaves it. *)
Inductive outcome (A : Type) : Type :=
| returns (a : A)
| exits (status : Z) (cerr : string)
| throws (exception : string).
Arguments returns {A} a.
Arguments exits {A} status cerr.
Arguments throws {A} exception.

Definition newline : ascii := "010"%char.
(** The text written by ["\n"] and by [std::endl]. *)
Definition endl : string := String newline EmptyString.

(** The lines that successive calls of [getline(ifs, class_name)] deliver
    until it fails: the text is cut at each newline, and a last line
    without newline is delivered unless it is empty. *)
Fixpoint getlines (text : string) : list string :=
  match text with
  | EmptyString => []
  | String c rest =>
      if Ascii.eqb c newline then EmptyString :: getlines rest
      else
        match getlines rest with
        | [] => [String c EmptyString]
        | l :: ls => String c l :: ls
        end
  end.

(** The [while (getline(...))] loop, on the lines still to come. *)
Fixpoint read_class_names (lines : list string) (class_names : list string)
    (i : Z) : outcome (list string * Z) :=
  match lines with
  | [] => returns (class_names, i)
  | class_name :: lines' =>
      if 2 <? Z.of_nat (String.length class_name) then
        (* class_names.at(i) = class_name *)
        if i <? Z.of_nat (length class_names) then
          read_class_names lines'
            (<[Z.to_nat i := class_name]> class_names) (incr i)
        else throws "std::out_of_range"
      else read_class_names lines' class_names i
  end.

(** [file] is the content found at [path], [None] when the stream cannot
    be opened. *)
Definition Set_Class_Names (file : option string) (class_num : Z)
  : outcome (list string) :=
  let class_names := replicate (Z.to_nat class_num) EmptyString in
  match file with
  | Some text =>
      match read_class_names (getlines text) class_names 0 with
      | returns (class_names, i) =>
          if negb (i =? class_num) then
            exits 1 "Error : The number of classes does not match the number of lines in the class name file."
          else returns class_names
      | exits status cerr => exits status cerr
      | throws e => throws e
      end
  | None => exits 1 "Error : can't open the class name file."
  end.

(** The lines [Set_Class_Names] keeps. *)
Definition long_line (l : string) : bool := 2 <? Z.of_nat (String.length l).

(** ** The float arithmetic of [main] *)

(** C++ [float] is IEEE binary32, [double] is binary64. *)
Module float.
Definition prec : Z := 24.
Definition emax : Z := 128.
Definition zero : spec_float := S754_zero false.
Definition add : spec_float -> spec_float -> spec_float := SFadd prec emax.
Definition div : spec_float -> spec_float -> spec_float := SFdiv prec emax.
(** [(float) n] for an unsigned integer. *)
Definition of_Z (n : Z) : spec_float := binary_normalize prec emax n 0 false.
(** [n * 1.0] stored into a [float]: through [double]. *)
Definition of_Z_via_double (n : Z) : spec_float :=
  match binary_normalize 53 1024 n 0 false with
  | S754_finite s m e => binary_round prec emax s m e
  | x => x
  end.
End float.

(** [static_cast<int64_t>(num_channels / 2.0)] computed with the binary64
    operations themselves, to compare [halve] with. *)
Definition halve_binary64 (n : Z) : option Z :=
  match SFdiv 53 1024 (binary_normalize 53 1024 n 0 false)
                      (binary_normalize 53 1024 2 0 false) with
  | S754_zero _ => Some 0
  | S754_finite s m e =>
      let a := if 0 <=? e then Z.pos m * 2 ^ e else Z.pos m / 2 ^ (- e) in
      Some (if s then - a else a)
  | _ => None
  end.

(** ** main *)

(** A mini-batch as the loaders deliver it: the image tensor is kept by
    name, the label tensor by its entries; [image.size(0)] is the number of
    labels. *)
Record batch := mkBatch { image : nat; label : list Z }.

Definition batch_size0 (b : batch) : Z := Z.of_nat (length (label b)).

(** What the program does to the outside, in order. *)
Inductive event : Type :=
| cout_str (s : string)
| cout_float (f : spec_float)
| cout_size (n : Z)
| cout_sizes (shape : list Z)
| net_train
| net_eval
| net_forward (training : bool) (b : batch)
| log_softmax
| criterion
| zero_grad
| backward
| optimizer_step.

(** The numeric side of the network and the data are parameters of the
    program. *)
Record environment := mkEnvironment {
  (** the values of all parameters, buffers and optimizer moments *)
  weights : Type;
  (** the weights after a training forward pass, [backward] and
      [optimizer.step()] on a batch *)
  after_step : weights -> batch -> weights;
  (** [loss.item<float>()] for a batch, given the weights and the mode *)
  loss_item : weights -> bool -> batch -> spec_float;
  (** [output.exp().argmax(1)[i].item<int64_t>()] *)
  response_item : weights -> bool -> batch -> nat -> Z;
  (** the loaders: the batches each one delivers during its k-th pass *)
  dataloader : nat -> list batch;
  valid_dataloader : nat -> list batch;
  test_dataloader : list batch;
  (** [dataset.size()], [valid_dataset.size()], [test_dataset.size()] and
      [dataloader.get_count_max()] *)
  dataset_size : Z;
  valid_dataset_size : Z;
  test_dataset_size : Z;
  get_count_max : Z
}.

Section Program.

Variable E : environment.

Record state := mkState {
  net : DensNetImpl;
  w : weights E;
  train_passes : nat;
  valid_passes : nat;
  train_loss_ave : list spec_float;
  train_epochs : list spec_float
}.

(** One iteration of the training [while] loop. *)
Definition train_batch (acc : state * spec_float * list event) (b : batch)
  : state * spec_float * list event :=
  let '(st, loss_sum, out) := acc in
  let mode := net_is_training (net st) in
  let loss := loss_item E (w st) mode b in
  let st' := mkState (net st) (after_step E (w st) b) (train_passes st)
               (valid_passes st) (train_loss_ave st) (train_epochs st) in
  (st', float.add loss_sum loss,
   out ++ [net_forward mode b; log_softmax; criterion;
           zero_grad; backward; optimizer_step]).

(** The inner [for] loop of the validation: one sample of the batch. *)
Definition tally (ww : weights E) (mode : bool) (b : batch)
    (acc : Z * Z) (i : nat) : Z * Z :=
  let '(total_match, total_counter) := acc in
  let response := response_item E ww mode b i in
  let answer := default 0 (label b !! i) in
  let total_counter := incr total_counter in
  if response =? answer then (incr total_match, total_counter)
  else (total_match, total_counter).

(** One iteration of the validation [while] loop; the accumulator holds
    [iteration], [total_loss], [total_match], [total_counter]. *)
Definition valid_batch (ww : weights E) (mode : bool)
    (acc : Z * spec_float * (Z * Z) * list event) (b : batch)
  : Z * spec_float * (Z * Z) * list event :=
  let '(iteration, total_loss, counts, out) := acc in
  let mini_batch_size := batch_size0 b in
  let loss := loss_item E ww mode b in
  let counts :=
    foldl (tally ww mode b) counts (seq 0 (Z.to_nat mini_batch_size)) in
  (incr iteration, float.add total_loss loss, counts,
   out ++ [net_forward mode b; log_softmax; criterion]).

(** The block guarded by [valid && (epoch % 5 == 0)]. *)
Definition validation (st : state) : state * list event :=
  let net' := DensNet_eval (net st) in
  let mode := net_is_training net' in
  let '(iteration, total_loss, (total_match, total_counter), out) :=
    foldl (valid_batch (w st) mode)
      (0, float.zero, (0, 0),
       [cout_str ("--------------- validation --------------------" ++ endl)%string;
        net_eval])
      (valid_dataloader E (valid_passes st)) in
  let ave_loss := float.div total_loss (float.of_Z iteration) in
  let total_accuracy :=
    float.div (float.of_Z total_match) (float.of_Z total_counter) in
  (mkState net' (w st) (train_passes st) (S (valid_passes st))
     (train_loss_ave st) (train_epochs st),
   out ++ [cout_str (endl ++ "Validation accuracy: ")%string;
           cout_float total_accuracy; cout_str endl]).

(** The body of the epoch loop up to the validation. *)
Definition train_epoch (total_iter total_epoch : Z)
    (st : state) (epoch : Z) : state * list event :=
  let net' := DensNet_train true (net st) in
  let st := mkState net' (w st) (train_passes st) (valid_passes st)
              (train_loss_ave st) (train_epochs st) in
  let '(st, loss_sum, out) :=
    foldl train_batch
      (st, float.zero,
       [net_train;
        cout_str ("--------------- Training --------------------" ++ endl)%string])
      (dataloader E (train_passes st)) in
  let avg := float.div loss_sum (float.of_Z total_iter) in
  let st := mkState (net st) (w st) (S (train_passes st)) (valid_passes st)
              (train_loss_ave st ++ [avg])
              (train_epochs st ++ [float.of_Z_via_double epoch]) in
  let out := out ++ [cout_str "epoch: "; cout_size epoch; cout_str "/";
                     cout_size total_epoch; cout_str ", avg_loss: ";
                     cout_float avg; cout_str endl] in
  (st, out).

(** The body of the epoch loop. *)
Definition epoch_body (valid : bool) (total_iter total_epoch : Z)
    (st : state) (epoch : Z) : state * list event :=
  let '(st, out) := train_epoch total_iter total_epoch st epoch in
  if valid && (epoch mod 5 =? 0) then
    let '(st, out') := validation st in (st, out ++ out')
  else (st, out).

(** [for (epoch = start_epoch; epoch <= total_epoch; epoch++)]: the
    epochs still to run are [epoch], [epoch + 1], ... *)
Definition epoch_loop (valid : bool) (total_iter start_epoch total_epoch : Z)
    (st : state) : state * list event :=
  foldl
    (fun acc epoch =>
       let '(st, out) := acc in
       let '(st, out') := epoch_body valid total_iter total_epoch st epoch in
       (st, out ++ out'))
    (st, [])
    (seqZ start_epoch (total_epoch + 1 - start_epoch)).

(** The local variables of the test block. *)
Record test_vars := mkTest {
  ave_loss : spec_float;
  match_ : Z;
  counter : Z;
  class_match : list Z;
  class_counter : list Z;
  class_accuracy : list spec_float
}.

(** [v[i]++] on a [std::vector<size_t>]; indexing outside the vector has
    no defined behaviour and gives no result here. *)
Definition vector_incr (v : list Z) (i : Z) : option (list Z) :=
  if (0 <=? i) && (i <? Z.of_nat (length v)) then
    x ← v !! Z.to_nat i;
    Some (<[Z.to_nat i := incr x]> v)
  else None.

(** One iteration of the test [while] loop.  [item<int64_t>()] needs a
    tensor of exactly one element. *)
Definition test_batch (ww : weights E) (mode : bool)
    (acc : option (test_vars * list event)) (data : batch)
  : option (test_vars * list event) :=
  '(t, out) ← acc;
  let loss := loss_item E ww mode data in
  let ave_loss := float.add (ave_loss t) loss in
  response ← (if length (label data) =? 1 then Some (response_item E ww mode data 0)
              else None)%nat;
  answer ← label data !! 0%nat;
  let counter := incr (counter t) in
  class_counter ← vector_incr (class_counter t) answer;
  let out := out ++ [net_forward mode data; log_softmax; criterion] in
  if response =? answer then
    class_match ← vector_incr (class_match t) answer;
    Some (mkTest ave_loss (incr (match_ t)) counter class_match class_counter
            (class_accuracy t), out)
  else
    Some (mkTest ave_loss (match_ t) counter (class_match t) class_counter
            (class_accuracy t), out).

(** The reporting loop [for (i = 0; i < class_num; i++)], on the indices
    still to visit. *)
Definition report_class (class_names : list string)
    (acc : option (test_vars * list event)) (i : nat)
  : option (test_vars * list event) :=
  '(t, out) ← acc;
  m ← class_match t !! i;
  c ← class_counter t !! i;
  name ← class_names !! i;
  let a := float.div (float.of_Z m) (float.of_Z c) in
  Some (mkTest (ave_loss t) (match_ t) (counter t) (class_match t)
          (class_counter t) (<[i := a]> (class_accuracy t)),
        out ++ [cout_str name; cout_str ": "; cout_float a; cout_str endl]).

(** The block guarded by [test]. *)
Definition test_phase (class_num : Z) (class_names : list string)
    (st : state) : option (state * test_vars * list event) :=
  let t0 := mkTest float.zero 0 0
              (replicate (Z.to_nat class_num) 0)
              (replicate (Z.to_nat class_num) 0)
              (replicate (Z.to_nat class_num) float.zero) in
  let net' := DensNet_eval (net st) in
  let mode := net_is_training net' in
  '(t, out) ←
    foldl (test_batch (w st) mode)
      (Some (t0, [cout_str "total test images : ";
                  cout_size (test_dataset_size E); cout_str endl; cout_str endl;
                  net_eval]))
      (test_dataloader E);
  let t := mkTest (float.div (ave_loss t) (float.of_Z (dataset_size E)))
             (match_ t) (counter t) (class_match t) (class_counter t)
             (class_accuracy t) in
  '(t, out) ←
    foldl (report_class class_names)
      (Some (t, out ++ [cout_str ("Test accuracy ==========" ++ endl)%string]))
      (seq 0 (Z.to_nat class_num));
  let accuracy := float.div (float.of_Z (match_ t)) (float.of_Z (counter t)) in
  Some (mkState net' (w st) (train_passes st) (valid_passes st)
          (train_loss_ave st) (train_epochs st),
        t,
        out ++ [cout_str (endl ++ "Test accuracy: ")%string;
                cout_float accuracy; cout_str endl]).

(** [main]: the shape check of a first network, the class names, twenty
    epochs with a validation every fifth, then the test block.  [file] is
    the content of the class name file, [w0] the weights of [net] after
    construction.  The working directory, the label file, the choice of the
    device and the final plot are left out.  The result is [None] where the
    test block has no defined behaviour. *)
Definition main (file : option string) (w0 : weights E)
  : outcome (option (test_vars * list event)) :=
  let tnet := DensNet 17 in
  let X := mkTensor [1; 3; 224; 224] (Input 0) in
  match DensNet_forward tnet X with
  | None => throws "c10::Error"
  | Some Y =>
      let out := [cout_sizes (sizes Y); cout_str endl] in
      let class_num := 17 in
      match Set_Class_Names file class_num with
      | returns class_names =>
          let out := out ++ [cout_str "total training images : ";
                             cout_size (dataset_size E); cout_str endl;
                             cout_str "total validation images : ";
                             cout_size (valid_dataset_size E); cout_str endl] in
          let valid := true in
          let net := DensNet class_num in
          let total_iter := get_count_max E in
          let start_epoch := 1 in
          let total_epoch := 20 in
          let '(st, out') :=
            epoch_loop valid total_iter start_epoch total_epoch
              (mkState net w0 0 0 [] []) in
          returns ('(st, t, out'') ← test_phase class_num class_names st;
                   Some (t, out ++ out' ++ out''))
      | exits status cerr => exits status cerr
      | throws e => throws e
      end
  end.

(** *** Vocabulary for the properties of [main] *)

(** What one iteration of the training loop and of an evaluation loop
    call, in order. *)
Definition training_events (mode : bool) (b : batch) : list event :=
  [net_forward mode b; log_softmax; criterion;
   zero_grad; backward; optimizer_step].
Definition evaluation_events (mode : bool) (b : batch) : list event :=
  [net_forward mode b; log_softmax; criterion].

(** Sample [i] of the batch is predicted right. *)
Definition hit (ww : weights E) (mode : bool) (b : batch) (i : nat) : bool :=
  response_item E ww mode b i =? default 0 (label b !! i).
Definition hits_in (ww : weights E) (mode : bool) (b : batch) : nat :=
  length (List.filter (hit ww mode b) (seq 0 (length (label b)))).
Definition total_hits (ww : weights E) (mode : bool) (bs : list batch) : nat :=
  sum_list (map (hits_in ww mode) bs).
Definition total_samples (bs : list batch) : nat :=
  sum_list (map (fun b => length (label b)) bs).

(** The test loader delivers one sample at a time. *)
Definition answer_of (b : batch) : Z := default 0 (label b !! 0%nat).
Definition labelled (c : nat) (b : batch) : bool := answer_of b =? Z.of_nat c.
Definition recognised (ww : weights E) (b : batch) : bool :=
  response_item E ww false b 0 =? answer_of b.
Definition count_labelled (c : nat) (bs : list batch) : nat :=
  length (List.filter (labelled c) bs).
Definition count_recognised (ww : weights E) (c : nat) (bs : list batch) : nat :=
  length (List.filter (fun b => labelled c b && recognised ww b) bs).
Definition count_hits (ww : weights E) (bs : list batch) : nat :=
  length (List.filter (recognised ww) bs).
(** A batch of the test loader: one label, naming a class. *)
Definition test_sample (class_num : Z) (b : batch) : Prop :=
  exists a, label b = [a] /\ 0 <= a < class_num.

(** The per-class accuracy the test block computes for class [c]. *)
Definition accuracy_of (ww : weights E) (c : nat) (bs : list batch) : spec_float :=
  float.div (float.of_Z (Z.of_nat (count_recognised ww c bs)))
            (float.of_Z (Z.of_nat (count_labelled c bs))).

(** The line the test block prints for class [c]. *)
Definition report_events (ww : weights E) (class_names : list string)
    (bs : list batch) (c : nat) : list event :=
  [cout_str (default EmptyString (class_names !! c)); cout_str ": ";
   cout_float (accuracy_of ww c bs); cout_str endl].

(** The local variables of the test block after the loop over [bs] and
    after the first [k] classes were reported, for [n] classes. *)
Definition test_vars_after (ww : weights E) (n k : nat) (bs : list batch)
    (ave : spec_float) : test_vars :=
  mkTest ave
    (Z.of_nat (count_hits ww bs))
    (Z.of_nat (length bs))
    (map (fun c => Z.of_nat (count_recognised ww c bs)) (seq 0 n))
    (map (fun c => Z.of_nat (count_labelled c bs)) (seq 0 n))
    (map (fun c => accuracy_of ww c bs) (seq 0 k)
       ++ replicate (n - k) float.zero).

(** The sum the test loop accumulates in [ave_loss]. *)
Definition loss_sum_of (ww : weights E) (bs : list batch) : spec_float :=
  foldl float.add float.zero (map (loss_item E ww false) bs).

(** Everything the test block writes and calls. *)
Definition test_events (ww : weights E) (class_names : list string)
    (n : nat) (bs : list batch) : list event :=
  [cout_str "total test images : "; cout_size (test_dataset_size E);
   cout_str endl; cout_str endl; net_eval]
  ++ flat_map (evaluation_events false) bs
  ++ [cout_str ("Test accuracy ==========" ++ endl)%string]
  ++ flat_map (report_events ww class_names bs) (seq 0 n)
  ++ [cout_str (endl ++ "Test accuracy: ")%string;
      cout_float (float.div (float.of_Z (Z.of_nat (count_hits ww bs)))
                            (float.of_Z (Z.of_nat (length bs))));
      cout_str endl].

End Program.

Arguments net {E} s.
Arguments w {E} s.
Arguments train_passes {E} s.
Arguments valid_passes {E} s.
Arguments train_loss_ave {E} s.
Arguments train_epochs {E} s.

(** A small environment to run the program on: every loss is 3, every
    prediction is class 0; the training set has two images, the test set
    one image of class 0. *)
Definition small_environment : environment :=
  {| weights := unit;
     after_step := fun _ _ => tt;
     loss_item := fun _ _ _ => float.of_Z 3;
     response_item := fun _ _ _ _ => 0;
     dataloader := fun _ => [mkBatch 0 [0; 1]];
     valid_dataloader := fun _ => [mkBatch 1 [0; 1]];
     test_dataloader := [mkBatch 2 [0]];
     dataset_size := 2;
     valid_dataset_size := 2;
     test_dataset_size := 1;
     get_count_max := 1 |}.

Definition small_state : state small_environment :=
  mkState small_environment (DensNet 2) tt 0 0 [] [].

(** ** Vocabulary for the further properties *)

(** Height or width of the feature map after the stem: the 7 x 7
    convolution with stride 2 and padding 3, then the 3 x 3 max-pooling
    with stride 2 and padding 1. *)
Definition stem_out (h : Z) : Z := window_out (window_out h 7 2 3 1) 3 2 1 1.

(** Height or width of the feature map [features] returns: the stem, then
    three transition blocks. *)
Definition features_out (h : Z) : Z := stem_out h / 2 / 2 / 2.

(** A line: a string without newline. *)
Fixpoint no_newline (l : string) : bool :=
  match l with
  | EmptyString => true
  | String c l' => negb (Ascii.eqb c newline) && no_newline l'
  end.

(** The text of a file whose lines are [ls], each ended by a newline. *)
Definition unlines (ls : list string) : string :=
  foldr (fun l text => (l ++ String newline text)%string) EmptyString ls.

(** The sum the training loop leaves in [loss_sum], started at [acc]: each
    batch is evaluated, in training mode, with the weights the steps on the
    batches before it have left. *)
Fixpoint training_loss_sum (E : environment) (ww : weights E)
    (acc : spec_float) (bs : list batch) : spec_float :=
  match bs with
  | [] => acc
  | b :: bs' =>
      training_loss_sum E (after_step E ww b)
        (float.add acc (loss_item E ww true b)) bs'
  end.

(** The weights after one optimizer step on each batch of [bs], in order. *)
Definition weights_after (E : environment) (ww : weights E)
    (bs : list batch) : weights E :=
  foldl (after_step E) ww bs.

(** [avg_loss] of an epoch that starts with weights [ww] and is delivered
    the batches [bs]. *)
Definition epoch_avg_loss (E : environment) (total_iter : Z)
    (ww : weights E) (bs : list batch) : spec_float :=
  float.div (training_loss_sum E ww float.zero bs) (float.of_Z total_iter).

(** The weights after the epochs whose loader passes are [passes]. *)
Definition weights_after_passes (E : environment) (ww : weights E)
    (passes : list nat) : weights E :=
  foldl (fun ww k => weights_after E ww (dataloader E k)) ww passes.

(** An environment whose loaders deliver nothing. *)
Definition idle_environment : environment :=
  {| weights := unit;
     after_step := fun _ _ => tt;
     loss_item := fun _ _ _ => float.of_Z 3;
     response_item := fun _ _ _ _ => 0;
     dataloader := fun _ => [];
     valid_dataloader := fun _ => [];
     test_dataloader := [];
     dataset_size := 2;
     valid_dataset_size := 0;
     test_dataset_size := 0;
     get_count_max := 0 |}.

Definition idle_state : state idle_environment :=
  mkState idle_environment (DensNet 2) tt 0 0 [] [].

(** The sum of a [std::vector<size_t>]. *)
Definition vector_sum (v : list Z) : Z := foldr Z.add 0 v.

(** * Properties *)

(** ** Machine integers *)

Lemma int64_small (z : Z) : - 2 ^ 63 <= z < 2 ^ 63 -> int64 z = z.
Proof.
  intros H. unfold int64.
  rewrite Z.mod_small by lia. lia.
Qed.

Lemma add64_small (a b : Z) :
  - 2 ^ 63 <= a + b < 2 ^ 63 -> add64 a b = a + b.
Proof. apply int64_small. Qed.

Lemma mul64_small (a b : Z) :
  - 2 ^ 63 <= a * b < 2 ^ 63 -> mul64 a b = a * b.
Proof. apply int64_small. Qed.

Lemma incr_small (n : Z) : 0 <= n < 2 ^ 64 - 1 -> incr n = n + 1.
Proof. intros H. unfold incr, size_t. apply Z.mod_small. lia. Qed.

Lemma int64_to_double_exact (n : Z) :
  Z.abs n < 2 ^ 53 -> int64_to_double n = n.
Proof.
  intros H. unfold int64_to_double.
  destruct (Z.ltb_spec (Z.abs n) (2 ^ 53)); [reflexivity | lia].
Qed.

Lemma halve_trunc (n : Z) : Z.abs n < 2 ^ 53 -> halve n = Z.quot n 2.
Proof. intros H. unfold halve. now rewrite int64_to_double_exact. Qed.

Lemma halve_nonneg (n : Z) : 0 <= n < 2 ^ 53 -> halve n = n / 2.
Proof.
  intros H. rewrite halve_trunc by lia.
  apply Z.quot_div_nonneg; lia.
Qed.

Lemma halve_odd (n : Z) :
  0 <= n < 2 ^ 53 -> Z.odd n = true -> 2 * halve n = n - 1.
Proof.
  intros H Hodd. rewrite halve_nonneg by assumption.
  rewrite (Zdiv2_odd_eqn n) at 2. rewrite Hodd.
  rewrite Z.div2_div. lia.
Qed.

Lemma halve_even (n : Z) :
  0 <= n < 2 ^ 53 -> Z.even n = true -> 2 * halve n = n.
Proof.
  intros H Hev. rewrite halve_nonneg by assumption.
  rewrite (Zdiv2_odd_eqn n) at 2. rewrite <- Z.negb_even, Hev.
  rewrite Z.div2_div. simpl. lia.
Qed.

Lemma halve_bounds (n : Z) : 0 <= n < 2 ^ 53 -> 0 <= halve n <= n.
Proof.
  intros H. rewrite halve_nonneg by assumption.
  split; [apply Z.div_pos; lia|].
  apply Z.div_le_upper_bound; lia.
Qed.

(** The integer model of the conversion agrees with the binary64
    operations of the standard library on sample channel counts, also where
    the conversion to [double] rounds. *)
Example halve_agrees_with_binary64 :
  map halve_binary64
    [0; 1; 2; 3; 192; 224; 240; 247; -5; 2 ^ 53 + 1; 2 ^ 53 + 3;
     2 ^ 62 + 12345; 2 ^ 63 - 1; - 2 ^ 63]
  = map (fun n => Some (halve n))
    [0; 1; 2; 3; 192; 224; 240; 247; -5; 2 ^ 53 + 1; 2 ^ 53 + 3;
     2 ^ 62 + 12345; 2 ^ 63 - 1; - 2 ^ 63].
Proof. vm_compute. reflexivity. Qed.

(** ** Modules: structural facts *)

(** Induction on the module tree. *)
Lemma Module_tree_ind (P : Module -> Prop) :
  (forall k t ps ms, Forall P ms -> P (mkModule k t ps ms)) ->
  forall m, P m.
Proof.
  intros step. fix IH 1. intros [k t ps ms]. apply step.
  induction ms as [|m ms IHms]; constructor; [apply IH | exact IHms].
Qed.

Lemma forward_unfold (m : Module) (x : Tensor) :
  forward m x = forward_body m x.
Proof. destruct m as [k t ps ms]; destruct k, ms; reflexivity. Qed.

Lemma chain_app (ms1 ms2 : list Module) (x : Tensor) :
  chain (ms1 ++ ms2) x = chain ms1 x ≫= chain ms2.
Proof.
  revert x. induction ms1 as [|m ms1 IH]; intros x; simpl; [reflexivity|].
  destruct (forward m x); simpl; [apply IH | reflexivity].
Qed.

Lemma chain_snoc (ms : list Module) (m : Module) (x : Tensor) :
  chain (ms ++ [m]) x = chain ms x ≫= forward m.
Proof.
  rewrite chain_app. destruct (chain ms x) as [y|]; simpl; [|reflexivity].
  destruct (forward m y); reflexivity.
Qed.

(** The chain is the iterated composition of the forward passes. *)
Lemma chain_foldl (ms : list Module) (x : Tensor) :
  chain ms x = foldl (fun acc m => acc ≫= forward m) (Some x) ms.
Proof.
  induction ms as [|m ms IH] using rev_ind; [reflexivity|].
  rewrite chain_snoc, foldl_snoc, IH. reflexivity.
Qed.

(** Parameters play no part in the shapes: rewriting them leaves every
    forward pass as it is. *)
Lemma forward_for_each_module body (m : Module) :
  forall x, forward (for_each_module body m) x = forward m x.
Proof.
  induction m as [k t ps ms IH] using Module_tree_ind. intros x.
  assert (Hchain : forall y, chain (map (for_each_module body) ms) y = chain ms y).
  { induction IH as [|m ms Hm _ IHms]; intros y; simpl; [reflexivity|].
    rewrite Hm. destruct (forward m y); [apply IHms | reflexivity]. }
  rewrite !forward_unfold. unfold forward_body. simpl.
  assert (Hseq : Sequential_forward (map (for_each_module body) ms) x
                 = Sequential_forward ms x).
  { destruct ms; [reflexivity|]. apply Hchain. }
  destruct k; rewrite ?Hseq; reflexivity.
Qed.

Lemma train_for_each_module on body (m : Module) :
  train on (for_each_module body m) = for_each_module body (train on m).
Proof.
  induction m as [k t ps ms IH] using Module_tree_ind. simpl. f_equal.
  rewrite !map_map. induction IH as [|m ms Hm _ IHms]; simpl; congruence.
Qed.

Lemma modules_for_each_module body (m : Module) :
  map (fun m => (kind_of m, parameters m)) (modules (for_each_module body m))
  = map (fun m => (kind_of m, body (kind_of m) (parameters m))) (modules m).
Proof.
  induction m as [k t ps ms IH] using Module_tree_ind. simpl. f_equal.
  induction IH as [|m ms Hm _ IHms]; simpl; [reflexivity|].
  rewrite !map_app, Hm, IHms. reflexivity.
Qed.

Lemma modules_train on (m : Module) :
  Forall (fun m' => is_training m' = on) (modules (train on m)).
Proof.
  induction m as [k t ps ms IH] using Module_tree_ind. simpl.
  constructor; [reflexivity|].
  induction IH as [|m ms Hm _ IHms]; simpl; [constructor|].
  apply Forall_app; split; assumption.
Qed.

(** ** Shapes through the layers *)

Lemma window_out_same (h : Z) : window_out h 3 1 1 1 = h.
Proof. unfold window_out. rewrite Z.div_1_r. lia. Qed.

Lemma window_out_pointwise (h : Z) : window_out h 1 1 0 1 = h.
Proof. unfold window_out. rewrite Z.div_1_r. lia. Qed.

Lemma window_out_halve (h : Z) : window_out h 2 2 0 1 = h / 2.
Proof.
  unfold window_out.
  replace (h + 2 * 0 - 1 * (2 - 1) - 1) with (h + (-1) * 2) by lia.
  rewrite Z.div_add by lia. lia.
Qed.

Lemma batch_norm_ok (training : bool) (c n h w : Z) (x : Tensor) :
  sizes x = [n; c; h; w] ->
  (training = true -> n * h * w <> 1) ->
  batch_norm training c x
  = Some (mkTensor [n; c; h; w] (BatchNormOp training c (history x))).
Proof.
  intros Hs Ht. unfold batch_norm. rewrite Hs, Z.eqb_refl. simpl.
  destruct training; simpl; [|reflexivity].
  destruct (Z.eqb_spec (n * h * w) 1) as [E|_]; [|reflexivity].
  exfalso. now apply Ht.
Qed.

Lemma conv2d_ok (o : Conv2dOptions) (n h w : Z) (x : Tensor) :
  sizes x = [n; in_channels o; h; w] ->
  0 < in_channels o -> 0 < out_channels o ->
  kernel_size o <= h + 2 * padding o ->
  kernel_size o <= w + 2 * padding o ->
  conv2d o x
  = Some (mkTensor
            [n; out_channels o;
             window_out h (kernel_size o) (stride o) (padding o) 1;
             window_out w (kernel_size o) (stride o) (padding o) 1]
            (ConvOp o (history x))).
Proof.
  intros Hs Hi Ho Hh Hw. unfold conv2d. rewrite Hs, Z.eqb_refl.
  destruct (Z.ltb_spec 0 (in_channels o)); [|lia].
  destruct (Z.ltb_spec 0 (out_channels o)); [|lia].
  destruct (Z.leb_spec (kernel_size o) (h + 2 * padding o)); [|lia].
  destruct (Z.leb_spec (kernel_size o) (w + 2 * padding o)); [|lia].
  reflexivity.
Qed.

Lemma avg_pool2d_ok (n c h w : Z) (x : Tensor) :
  sizes x = [n; c; h; w] -> 2 <= h -> 2 <= w ->
  avg_pool2d 2 2 x
  = Some (mkTensor [n; c; h / 2; w / 2] (AvgPoolOp 2 2 (history x))).
Proof.
  intros Hs Hh Hw. unfold avg_pool2d. rewrite Hs, !window_out_halve.
  assert (1 <= h / 2) by (apply Z.div_le_lower_bound; lia).
  assert (1 <= w / 2) by (apply Z.div_le_lower_bound; lia).
  destruct (Z.leb_spec 1 (h / 2)); [|lia].
  destruct (Z.leb_spec 1 (w / 2)); [|lia].
  reflexivity.
Qed.

(** *** conv_block *)

Lemma conv_block_forward (on : bool) (cin cout n h w : Z) (x : Tensor) :
  sizes x = [n; cin; h; w] ->
  0 < cin -> 0 < cout -> 1 <= h -> 1 <= w ->
  (on = true -> n * h * w <> 1) ->
  forward (train on (conv_block cin cout)) x
  = Some (mkTensor [n; cin + cout; h; w]
            (conv_block_history on cin cout (history x))).
Proof.
  intros Hs Hcin Hcout Hh Hw Hon.
  rewrite forward_unfold. unfold forward_body. simpl.
  rewrite (batch_norm_ok on cin n h w x Hs Hon). simpl.
  rewrite (conv2d_ok _ n h w) by (simpl; first [reflexivity | lia]).
  simpl. rewrite !window_out_same.
  unfold cat2_dim1. simpl. rewrite Hs, !Z.eqb_refl. reflexivity.
Qed.

(** *** transition_block *)

Lemma transition_block_forward (on : bool) (cin cout n h w : Z) (x : Tensor) :
  sizes x = [n; cin; h; w] ->
  0 < cin -> 0 < cout -> 2 <= h -> 2 <= w ->
  (on = true -> n * h * w <> 1) ->
  forward (train on (transition_block cin cout)) x
  = Some (mkTensor [n; cout; h / 2; w / 2]
            (transition_block_history on cin cout (history x))).
Proof.
  intros Hs Hcin Hcout Hh Hw Hon.
  rewrite forward_unfold. unfold forward_body. simpl.
  rewrite (batch_norm_ok on cin n h w x Hs Hon). simpl.
  rewrite (conv2d_ok _ n h w) by (simpl; first [reflexivity | lia]).
  simpl. rewrite !window_out_pointwise.
  rewrite (avg_pool2d_ok n cout h w) by (simpl; first [reflexivity | lia]).
  reflexivity.
Qed.

(** *** DenseBlock *)

Lemma foldl_push_back {A} (f : A -> Module) (l : list A) k t ps ms :
  foldl (fun self i => push_back self (f i)) (mkModule k t ps ms) l
  = mkModule k t ps (ms ++ map f l).
Proof.
  revert ms. induction l as [|a l IH]; intros ms; simpl.
  - now rewrite app_nil_r.
  - rewrite IH, <- app_assoc. reflexivity.
Qed.

(** The blocks a [DenseBlock] is built from, as the constructor computes
    them. *)
Lemma DenseBlock_children (num_convs input_channels num_channels : Z) :
  DenseBlock num_convs input_channels num_channels
  = mkModule DenseBlockT true []
      (map (fun i => conv_block (add64 (mul64 num_channels i) input_channels)
                       num_channels)
           (seqZ 0 num_convs)).
Proof. unfold DenseBlock, empty_container. now rewrite foldl_push_back. Qed.

Lemma DenseBlock_length (num_convs input_channels num_channels : Z) :
  length (children (DenseBlock num_convs input_channels num_channels))
  = Z.to_nat num_convs.
Proof.
  rewrite DenseBlock_children. simpl. now rewrite length_map, length_seqZ.
Qed.

(** Block [i] receives [input_channels + i * growth_rate] channels. *)
Lemma DenseBlock_lookup (num_convs input_channels growth_rate : Z) (i : nat) :
  0 <= input_channels -> 0 <= growth_rate ->
  input_channels + num_convs * growth_rate < 2 ^ 63 ->
  Z.of_nat i < num_convs ->
  children (DenseBlock num_convs input_channels growth_rate) !! i
  = Some (conv_block (input_channels + Z.of_nat i * growth_rate) growth_rate).
Proof.
  intros Hic Hg Hb Hi. rewrite DenseBlock_children. simpl.
  rewrite list_lookup_fmap, lookup_seqZ_lt by assumption. simpl.
  assert (0 <= growth_rate * Z.of_nat i <= num_convs * growth_rate) by nia.
  rewrite mul64_small, add64_small by lia.
  do 2 f_equal. lia.
Qed.

Lemma seqZ_S_nat (k : nat) :
  seqZ 0 (Z.of_nat (S k)) = seqZ 0 (Z.of_nat k) ++ [Z.of_nat k].
Proof.
  replace (Z.of_nat (S k)) with (Z.of_nat k + 1) by lia.
  rewrite seqZ_app by lia.
  rewrite (seqZ_cons _ 1), (seqZ_nil _ (Z.pred 1)) by lia.
  now rewrite Z.add_0_l.
Qed.

Lemma dense_chain (on : bool) (ic g n h w : Z) (x : Tensor) (k : nat) :
  sizes x = [n; ic; h; w] ->
  0 < ic -> 0 < g -> 1 <= h -> 1 <= w ->
  (on = true -> n * h * w <> 1) ->
  ic + Z.of_nat k * g < 2 ^ 63 ->
  chain (map (train on)
           (map (fun i => conv_block (add64 (mul64 g i) ic) g)
              (seqZ 0 (Z.of_nat k)))) x
  = Some (mkTensor [n; ic + Z.of_nat k * g; h; w]
            (dense_block_history on ic g k (history x))).
Proof.
  intros Hs Hic Hg Hh Hw Hon. induction k as [|k IH]; intros Hb.
  - simpl. rewrite Z.add_0_r. destruct x as [sx hx]. simpl in *. now subst.
  - rewrite seqZ_S_nat, !map_app. cbn [map].
    rewrite chain_snoc, IH by nia.
    change (forward
              (train on (conv_block (add64 (mul64 g (Z.of_nat k)) ic) g))
              (mkTensor [n; ic + Z.of_nat k * g; h; w]
                 (dense_block_history on ic g k (history x)))
            = Some (mkTensor [n; ic + Z.of_nat (S k) * g; h; w]
                 (dense_block_history on ic g (S k) (history x)))).
    assert (0 <= g * Z.of_nat k) by nia.
    rewrite mul64_small, add64_small by nia.
    replace (g * Z.of_nat k + ic) with (ic + Z.of_nat k * g) by lia.
    rewrite (conv_block_forward on _ g n h w)
      by (simpl; first [reflexivity | nia | assumption]).
    replace (ic + Z.of_nat (S k) * g) with (ic + Z.of_nat k * g + g) by lia.
    reflexivity.
Qed.

Lemma DenseBlock_forward (on : bool) (num_convs ic g n h w : Z) (x : Tensor) :
  sizes x = [n; ic; h; w] ->
  1 <= num_convs -> 0 < ic -> 0 < g -> 1 <= h -> 1 <= w ->
  (on = true -> n * h * w <> 1) ->
  ic + num_convs * g < 2 ^ 63 ->
  forward (train on (DenseBlock num_convs ic g)) x
  = Some (mkTensor [n; ic + num_convs * g; h; w]
            (dense_block_history on ic g (Z.to_nat num_convs) (history x))).
Proof.
  intros Hs Hn Hic Hg Hh Hw Hon Hb.
  rewrite DenseBlock_children, forward_unfold. unfold forward_body. simpl.
  replace num_convs with (Z.of_nat (Z.to_nat num_convs)) at 1 by lia.
  assert (Hne : seqZ 0 (Z.of_nat (Z.to_nat num_convs)) <> []).
  { rewrite seqZ_cons by lia. discriminate. }
  unfold Sequential_forward.
  destruct (map (train on) _) as [|m ms] eqn:E.
  { apply fmap_nil_inv in E. apply fmap_nil_inv in E. contradiction. }
  rewrite <- E.
  rewrite (dense_chain on ic g n h w x) by (first [assumption | lia]).
  rewrite Z2Nat.id by lia. reflexivity.
Qed.

(** An empty [DenseBlock] cannot be run. *)
Lemma DenseBlock_empty_forward (on : bool) (num_convs ic g : Z) (x : Tensor) :
  num_convs <= 0 ->
  forward (train on (DenseBlock num_convs ic g)) x = None.
Proof.
  intros Hn. rewrite DenseBlock_children, seqZ_nil by assumption. reflexivity.
Qed.

(** *** DensNetImpl: the constructor *)

Lemma DensNetImpl_build_four (c0 g n1 n2 n3 n4 num_classes : Z) :
  0 <= c0 -> 0 <= g -> 0 <= n1 -> 0 <= n2 -> 0 <= n3 -> 0 <= n4 ->
  c0 + (n1 + n2 + n3 + n4) * g < 2 ^ 53 ->
  let net := DensNetImpl_build c0 g [n1; n2; n3; n4] num_classes in
  let '(ms, c4) := features_of c0 g n1 n2 n3 n4 in
  features net = mkModule SequentialImpl true [] ms
  /\ classifier net = Linear c4 num_classes
  /\ num_channels net = c4.
Proof.
  intros Hc Hg H1 H2 H3 H4 Hb.
  assert (0 <= n1 * g /\ 0 <= n2 * g /\ 0 <= n3 * g /\ 0 <= n4 * g)
    as (P1 & P2 & P3 & P4) by nia.
  assert (Hsum : c0 + n1 * g + n2 * g + n3 * g + n4 * g < 2 ^ 53) by lia.
  set (c1 := c0 + n1 * g).
  pose proof (halve_bounds c1 ltac:(subst c1; lia)) as B1.
  set (c2 := halve c1 + n2 * g).
  pose proof (halve_bounds c2 ltac:(subst c1 c2; lia)) as B2.
  set (c3 := halve c2 + n3 * g).
  pose proof (halve_bounds c3 ltac:(subst c1 c2 c3; lia)) as B3.
  unfold DensNetImpl_build, features_of. cbn [dense_blocks_loop length].
  change (size_t (Z.of_nat 4 - 1)) with 3.
  cbn [Z.add Z.eqb Pos.eqb negb Pos.add Pos.succ].
  rewrite !(mul64_small n1 g), !(add64_small c0 (n1 * g)) by lia.
  fold c1.
  rewrite !(mul64_small n2 g), !(add64_small (halve c1) (n2 * g))
    by (subst c1; lia).
  fold c2.
  rewrite !(mul64_small n3 g), !(add64_small (halve c2) (n3 * g))
    by (subst c1 c2; lia).
  fold c3.
  rewrite !(mul64_small n4 g), !(add64_small (halve c3) (n4 * g))
    by (subst c1 c2 c3; lia).
  cbn [features classifier num_channels].
  repeat split; reflexivity.
Qed.

Lemma num_channels_DensNet (num_classes : Z) :
  num_channels (DensNet num_classes) = 248.
Proof. reflexivity. Qed.

Lemma features_DensNet (num_classes : Z) :
  features (DensNet num_classes)
  = for_each_module official_init
      (mkModule SequentialImpl true [] DensNet_features).
Proof. reflexivity. Qed.

Lemma classifier_DensNet (num_classes : Z) :
  classifier (DensNet num_classes)
  = for_each_module official_init (Linear 248 num_classes).
Proof. reflexivity. Qed.

Lemma DensNet_train_fresh (num_classes : Z) :
  DensNet_train true (DensNet num_classes) = DensNet num_classes.
Proof. reflexivity. Qed.

(** *** DensNetImpl: the forward pass *)

Lemma chain_cons (m : Module) (ms : list Module) (x : Tensor) :
  chain (m :: ms) x = forward m x ≫= chain ms.
Proof. simpl. destruct (forward m x); reflexivity. Qed.

(** One step of the chain through a library layer, and through a block
    whose forward pass is known from a lemma. *)
Ltac enter_layer :=
  rewrite chain_cons, forward_unfold; unfold forward_body;
  cbn [train Conv2d BatchNorm2d ReLU Functional_max_pool2d
       kind_of is_training map].
Ltac leave_layer :=
  cbn [mbind option_bind relu sizes history
       in_channels out_channels kernel_size stride padding
       with_padding with_stride Options].
Ltac through_block lemma :=
  rewrite chain_cons, lemma by (simpl; first [reflexivity | lia]);
  cbn [mbind option_bind history].

Lemma features_forward (on : bool) (N : Z) (x : Tensor) :
  sizes x = [N; 3; 224; 224] -> 1 <= N ->
  chain (map (train on) DensNet_features) x
  = Some (mkTensor [N; 248; 7; 7] (features_history on (history x))).
Proof.
  intros Hs HN. unfold DensNet_features, stem. cbn [app map].
  (* stem: 224 -> 112 -> 56 *)
  enter_layer.
  rewrite (conv2d_ok _ N 224 224) by (simpl; first [assumption | lia]).
  leave_layer. change (window_out 224 7 2 3 1) with 112.
  enter_layer.
  rewrite (batch_norm_ok on 64 N 112 112) by (simpl; first [reflexivity | lia]).
  leave_layer.
  enter_layer. leave_layer.
  enter_layer.
  change (max_pool2d 3 2 1 1 false ?t)
    with (Some (mkTensor [N; 64; 56; 56] (MaxPoolOp 3 2 1 1 false (history t)))).
  leave_layer.
  (* four dense blocks, three transitions: 56 -> 28 -> 14 -> 7 *)
  through_block (DenseBlock_forward on 4 64 32 N 56 56).
  through_block (transition_block_forward on 192 96 N 56 56).
  change (56 / 2) with 28.
  through_block (DenseBlock_forward on 4 96 32 N 28 28).
  through_block (transition_block_forward on 224 112 N 28 28).
  change (28 / 2) with 14.
  through_block (DenseBlock_forward on 4 112 32 N 14 14).
  through_block (transition_block_forward on 240 120 N 14 14).
  change (14 / 2) with 7.
  through_block (DenseBlock_forward on 4 120 32 N 7 7).
  (* final batch normalisation *)
  enter_layer.
  rewrite (batch_norm_ok on 248 N 7 7) by (simpl; first [reflexivity | lia]).
  reflexivity.
Qed.

Lemma DensNet_forward_ok (on : bool) (N num_classes : Z) (x : Tensor) :
  sizes x = [N; 3; 224; 224] -> 1 <= N -> 0 <= num_classes ->
  DensNet_forward (DensNet_train on (DensNet num_classes)) x
  = Some (mkTensor [N; num_classes]
            (logits_history on N num_classes (history x))).
Proof.
  intros Hs HN Hc. unfold DensNet_forward, DensNet_train.
  cbn [features classifier].
  rewrite features_DensNet, classifier_DensNet, !train_for_each_module,
    !forward_for_each_module.
  rewrite forward_unfold. unfold forward_body.
  cbn [train kind_of children Sequential_forward].
  change (Sequential_forward (map (train on) DensNet_features) x)
    with (chain (map (train on) DensNet_features) x).
  rewrite (features_forward on N x Hs HN).
  cbn [mbind option_bind relu sizes history adaptive_avg_pool2d].
  change ((1 <=? 248) && (1 <=? 7) && (1 <=? 7)) with true. cbv iota.
  cbn [mbind option_bind]. unfold view_rows, size0, numel.
  cbn [sizes head default from_option id foldr history].
  replace (N * (248 * (1 * (1 * 1)))) with (248 * N) by lia.
  rewrite Z.mod_mul, Z.div_mul by lia.
  destruct (Z.ltb_spec 0 N); [|lia]. cbn [andb Z.eqb mbind option_bind].
  rewrite forward_for_each_module, forward_unfold. unfold forward_body, linear.
  cbn [train Linear kind_of sizes history Z.eqb Pos.eqb andb].
  destruct (Z.leb_spec 0 num_classes); [|lia]. reflexivity.
Qed.

(** At a batch size of zero the inferred dimension of [view] is
    ambiguous and the pass fails. *)
Example DensNet_forward_empty_batch :
  DensNet_forward (DensNet 17) (mkTensor [0; 3; 224; 224] (Input 0)) = None.
Proof. vm_compute. reflexivity. Qed.

(** *** The initialisation pass *)

Lemma official_init_pass_modules (self : DensNetImpl) :
  map kind_and_parameters (DensNet_modules (official_init_pass self))
  = map (fun m => (kind_of m, official_init (kind_of m) (parameters m)))
      (DensNet_modules self).
Proof.
  unfold DensNet_modules, official_init_pass. cbn [features classifier].
  rewrite !map_app. unfold kind_and_parameters.
  now rewrite !modules_for_each_module.
Qed.

Lemma DensNet_initialised (num_classes : Z) :
  Forall initialised (DensNet_modules (DensNet num_classes)).
Proof.
  unfold DensNet_modules. vm_compute.
  repeat (constructor; [reflexivity|]). constructor.
Qed.

(** The network has 90 modules below itself: [features] and its 4 stem
    layers, 4 dense blocks of 1 + 4 * 4 modules, 3 transition blocks of 5,
    the final batch normalisation and the classifier. *)
Lemma DensNet_modules_length (num_classes : Z) :
  length (DensNet_modules (DensNet num_classes)) = 90%nat.
Proof. reflexivity. Qed.

(** *** Set_Class_Names *)

Example getlines_example :
  getlines ("abc" ++ endl ++ endl ++ "de")%string = ["abc"; ""; "de"].
Proof. reflexivity. Qed.

Example Set_Class_Names_example :
  Set_Class_Names (Some ("rose" ++ endl ++ "ab" ++ endl ++ "iris" ++ endl)%string) 2
  = returns ["rose"; "iris"].
Proof. reflexivity. Qed.

Lemma read_class_names_spec (lines done : list string) (k : nat) :
  Z.of_nat (length done + k) < 2 ^ 64 ->
  read_class_names lines (done ++ replicate k EmptyString)
    (Z.of_nat (length done))
  = if (length (List.filter long_line lines) <=? k)%nat
    then returns
           (done ++ List.filter long_line lines
                 ++ replicate (k - length (List.filter long_line lines))
                      EmptyString,
            Z.of_nat (length done + length (List.filter long_line lines)))
    else throws "std::out_of_range".
Proof.
  revert done k. induction lines as [|l lines IH]; intros done k Hb.
  - simpl. rewrite Nat.sub_0_r, Nat.add_0_r. reflexivity.
  - cbn [read_class_names List.filter]. fold (long_line l).
    destruct (long_line l) eqn:Hl.
    + rewrite length_app, length_replicate.
      destruct k as [|k].
      * destruct (Z.ltb_spec (Z.of_nat (length done))
                    (Z.of_nat (length done + 0))); [lia|].
        reflexivity.
      * destruct (Z.ltb_spec (Z.of_nat (length done))
                    (Z.of_nat (length done + S k))); [|lia].
        rewrite Nat2Z.id.
        rewrite insert_app_r_alt, Nat.sub_diag by lia.
        cbn [replicate]. simpl (<[0%nat:=l]> (_ :: _)).
        rewrite incr_small by lia.
        replace (Z.of_nat (length done) + 1)
          with (Z.of_nat (length (done ++ [l])))
          by (rewrite length_app; simpl; lia).
        replace (done ++ l :: replicate k EmptyString)
          with ((done ++ [l]) ++ replicate k EmptyString)
          by (now rewrite <- app_assoc).
        rewrite IH by (rewrite length_app; simpl; lia).
        cbn [length]. change (S ?a <=? S ?b)%nat with (a <=? b)%nat.
        destruct (_ <=? k)%nat; [|reflexivity].
        rewrite <- app_assoc, length_app. cbn [app length Nat.sub].
        do 3 f_equal. lia.
    + apply IH, Hb.
Qed.

(** Exactly [class_num] long lines: they are returned in file order. *)
Lemma Set_Class_Names_match (text : string) (class_num : Z) :
  0 <= class_num < 2 ^ 64 ->
  Z.of_nat (length (List.filter long_line (getlines text))) = class_num ->
  Set_Class_Names (Some text) class_num
  = returns (List.filter long_line (getlines text)).
Proof.
  intros Hc Hn. unfold Set_Class_Names.
  rewrite (read_class_names_spec _ [] (Z.to_nat class_num)) by (simpl; lia).
  replace (length (List.filter long_line (getlines text)))
    with (Z.to_nat class_num) by lia.
  rewrite Nat.leb_refl, Nat.sub_diag. cbn [app length replicate Nat.add].
  rewrite Z2Nat.id, Z.eqb_refl, app_nil_r by lia. reflexivity.
Qed.



Lemma Set_Class_Names_unreadable (class_num : Z) :
  Set_Class_Names None class_num
  = exits 1 "Error : can't open the class name file.".
Proof. reflexivity. Qed.

(** ** main *)

Section ProgramProperties.

Variable E : environment.

(** *** The training loop *)

Lemma foldl_train_batch (bs : list batch) (st : state E) (s : spec_float)
    (out : list event) :
  exists st' s',
    foldl (train_batch E) (st, s, out) bs
    = (st', s',
       out ++ flat_map (training_events (net_is_training (net st))) bs)
    /\ net st' = net st
    /\ train_passes st' = train_passes st
    /\ valid_passes st' = valid_passes st
    /\ train_loss_ave st' = train_loss_ave st
    /\ train_epochs st' = train_epochs st.
Proof.
  revert st s out. induction bs as [|b bs IH]; intros st s out.
  - exists st, s. simpl. now rewrite app_nil_r.
  - cbn [foldl]. unfold train_batch at 2.
    edestruct IH as (st' & s' & -> & Hn & Hp & Hv & Hl & He).
    exists st', s'. simpl in *. rewrite <- app_assoc.
    repeat split; assumption.
Qed.

Lemma train_epoch_spec (total_iter total_epoch : Z) (st : state E) (epoch : Z) :
  exists st' avg,
    train_epoch E total_iter total_epoch st epoch
    = (st',
       [net_train;
        cout_str ("--------------- Training --------------------" ++ endl)%string]
       ++ flat_map (training_events true) (dataloader E (train_passes st))
       ++ [cout_str "epoch: "; cout_size epoch; cout_str "/";
           cout_size total_epoch; cout_str ", avg_loss: ";
           cout_float avg; cout_str endl])
    /\ net st' = DensNet_train true (net st)
    /\ valid_passes st' = valid_passes st
    /\ train_passes st' = S (train_passes st).
Proof.
  unfold train_epoch. cbn [train_passes].
  edestruct (foldl_train_batch (dataloader E (train_passes st)))
    as (st' & s' & -> & Hn & Hp & Hv & Hl & He).
  eexists _, _. cbn [net train_passes valid_passes DensNet_train net_is_training].
  rewrite <- app_assoc. split; [reflexivity|].
  cbn [net valid_passes train_passes] in *. rewrite Hn, Hp, Hv.
  repeat split; reflexivity.
Qed.

(** *** The validation loop *)

Lemma foldl_tally (ww : weights E) (mode : bool) (b : batch) (l : list nat)
    (m c : Z) :
  0 <= m -> 0 <= c -> m <= c -> c + Z.of_nat (length l) < 2 ^ 64 ->
  foldl (tally E ww mode b) (m, c) l
  = (m + Z.of_nat (length (List.filter (hit E ww mode b) l)),
     c + Z.of_nat (length l)).
Proof.
  revert m c. induction l as [|i l IH]; intros m c Hm Hc Hmc Hb.
  - simpl. now rewrite !Z.add_0_r.
  - cbn [foldl length List.filter] in *. unfold tally at 2.
    fold (hit E ww mode b i). rewrite (incr_small c) by lia.
    destruct (hit E ww mode b i).
    + rewrite (incr_small m), IH by lia. cbn [length]. f_equal; lia.
    + rewrite IH by lia. f_equal; lia.
Qed.

Lemma foldl_valid_batch (ww : weights E) (mode : bool) (bs : list batch)
    (it : Z) (tl : spec_float) (m c : Z) (out : list event) :
  0 <= m -> 0 <= c -> m <= c ->
  c + Z.of_nat (total_samples bs) < 2 ^ 64 ->
  exists it' tl',
    foldl (valid_batch E ww mode) (it, tl, (m, c), out) bs
    = (it', tl',
       (m + Z.of_nat (total_hits E ww mode bs),
        c + Z.of_nat (total_samples bs)),
       out ++ flat_map (evaluation_events mode) bs).
Proof.
  revert it tl m c out. induction bs as [|b bs IH]; intros it tl m c out Hm Hc Hmc Hb.
  - exists it, tl. simpl. now rewrite !Z.add_0_r, app_nil_r.
  - cbn [foldl]. unfold valid_batch at 2.
    unfold total_samples, total_hits in *. cbn [map sum_list sum_list_with id] in *.
    unfold batch_size0. rewrite Nat2Z.id.
    rewrite foldl_tally by (rewrite ?length_seq; lia).
    rewrite length_seq. fold (hits_in E ww mode b).
    assert (hits_in E ww mode b <= length (label b))%nat.
    { unfold hits_in. etransitivity; [apply List.filter_length_le|].
      now rewrite length_seq. }
    edestruct (IH (incr it) (float.add tl (loss_item E ww mode b))
                 (m + Z.of_nat (hits_in E ww mode b))
                 (c + Z.of_nat (length (label b))))
      as (it' & tl' & -> ); try lia.
    exists it', tl'. rewrite <- app_assoc. cbn [flat_map].
    unfold evaluation_events at 2. cbn [app].
    rewrite !Nat2Z.inj_add, !Z.add_assoc. reflexivity.
Qed.

Lemma validation_spec (st : state E) :
  let bs := valid_dataloader E (valid_passes st) in
  Z.of_nat (total_samples bs) < 2 ^ 64 ->
  validation E st
  = (mkState E (DensNet_eval (net st)) (w st) (train_passes st)
       (S (valid_passes st)) (train_loss_ave st) (train_epochs st),
     [cout_str ("--------------- validation --------------------" ++ endl)%string;
      net_eval]
     ++ flat_map (evaluation_events false) bs
     ++ [cout_str (endl ++ "Validation accuracy: ")%string;
         cout_float
           (float.div (float.of_Z (Z.of_nat (total_hits E (w st) false bs)))
                      (float.of_Z (Z.of_nat (total_samples bs))));
         cout_str endl]).
Proof.
  intros bs Hb. unfold validation. fold bs.
  cbn [DensNet_eval DensNet_train net_is_training].
  edestruct (foldl_valid_batch (w st) false bs 0 float.zero 0 0)
    as (it' & tl' & ->); try lia.
  rewrite !Z.add_0_l, <- app_assoc. reflexivity.
Qed.

End ProgramProperties.

(** *** The test block *)

Lemma vector_incr_counts (f : nat -> nat) (n a : nat) :
  (a < n)%nat -> Z.of_nat (f a) < 2 ^ 64 - 1 ->
  vector_incr (map (fun c => Z.of_nat (f c)) (seq 0 n)) (Z.of_nat a)
  = Some (map (fun c => Z.of_nat (if (c =? a)%nat then S (f c) else f c))
            (seq 0 n)).
Proof.
  intros Ha Hb. unfold vector_incr.
  rewrite length_map, length_seq, Nat2Z.id.
  destruct (Z.leb_spec 0 (Z.of_nat a)); [|lia].
  destruct (Z.ltb_spec (Z.of_nat a) (Z.of_nat n)); [|lia].
  cbn [andb].
  change (map ?g ?l) with (g <$> l).
  rewrite list_lookup_fmap, lookup_seq_lt by assumption.
  cbn [fmap option_fmap option_map mbind option_bind Nat.add]. f_equal.
  apply list_eq. intros i.
  destruct (decide (i = a)) as [->|Hne].
  - rewrite list_lookup_insert_eq by (now rewrite length_fmap, length_seq).
    rewrite list_lookup_fmap, lookup_seq_lt by assumption.
    cbn [fmap option_fmap option_map Nat.add]. rewrite Nat.eqb_refl.
    rewrite incr_small by lia. f_equal. lia.
  - rewrite list_lookup_insert_ne by congruence.
    rewrite !list_lookup_fmap.
    destruct (seq 0 n !! i) as [c|] eqn:Hc; [|reflexivity].
    apply lookup_seq in Hc as [-> _].
    cbn [fmap option_fmap option_map Nat.add].
    destruct (Nat.eqb_spec i a); [contradiction | reflexivity].
Qed.

Lemma map_constant {A B : Type} (x : B) (f : A -> B) (l : list A) :
  (forall a, f a = x) -> map f l = replicate (length l) x.
Proof.
  intros Hf. induction l as [|a l IH]; [reflexivity|].
  cbn [map length replicate]. now rewrite Hf, IH.
Qed.

Section TestProperties.

Variable E : environment.

Lemma count_labelled_le (c : nat) (bs : list batch) :
  (count_labelled c bs <= length bs)%nat.
Proof. apply List.filter_length_le. Qed.

Lemma count_recognised_le (ww : weights E) (c : nat) (bs : list batch) :
  (count_recognised E ww c bs <= count_labelled c bs)%nat.
Proof.
  unfold count_recognised, count_labelled.
  induction bs as [|b bs IH]; [reflexivity|]. cbn [List.filter].
  destruct (labelled c b), (recognised E ww b); cbn [andb length]; lia.
Qed.

Lemma count_hits_le (ww : weights E) (bs : list batch) :
  (count_hits E ww bs <= length bs)%nat.
Proof. apply List.filter_length_le. Qed.

(** The loop over the test loader. *)
Lemma test_loop_spec (ww : weights E) (class_num : Z) (out0 : list event)
    (bs : list batch) :
  0 <= class_num ->
  Forall (test_sample class_num) bs ->
  Z.of_nat (length bs) < 2 ^ 64 ->
  foldl (test_batch E ww false)
    (Some (mkTest float.zero 0 0
             (replicate (Z.to_nat class_num) 0)
             (replicate (Z.to_nat class_num) 0)
             (replicate (Z.to_nat class_num) float.zero), out0)) bs
  = Some (test_vars_after E ww (Z.to_nat class_num) 0 bs (loss_sum_of E ww bs),
          out0 ++ flat_map (evaluation_events false) bs).
Proof.
  intros Hn. induction bs as [|b bs IH] using rev_ind; intros Hok Hlen.
  - cbn [foldl]. unfold test_vars_after, loss_sum_of, count_hits.
    cbn [map foldl List.filter length flat_map app Nat.sub].
    rewrite app_nil_r.
    rewrite !(map_constant 0) by reflexivity.
    rewrite length_seq, Nat.sub_0_r. reflexivity.
  - apply Forall_app in Hok as [Hok Hb].
    apply Forall_cons in Hb as [(a & Hlab & Ha) _].
    rewrite length_app in Hlen. cbn [length] in Hlen.
    assert (Ea : a = Z.of_nat (Z.to_nat a)) by lia.
    set (a' := Z.to_nat a) in *. clearbody a'. subst a.
    rewrite foldl_snoc, IH by (first [assumption | lia]).
    unfold test_batch, test_vars_after.
    cbn [mbind option_bind ave_loss counter match_ class_counter class_match
         class_accuracy].
    rewrite Hlab. cbn [length Nat.eqb lookup list_lookup mbind option_bind].
    pose proof (count_labelled_le a' bs).
    pose proof (count_recognised_le ww a' bs).
    pose proof (count_hits_le ww bs).
    rewrite (vector_incr_counts (fun c => count_labelled c bs)) by lia.
    cbn [mbind option_bind].
    assert (Hans : answer_of b = Z.of_nat a')
      by (unfold answer_of; now rewrite Hlab).
    assert (Hlabelled : forall c, labelled c b = (c =? a')%nat).
    { intros c. unfold labelled. rewrite Hans.
      destruct (Z.eqb_spec (Z.of_nat a') (Z.of_nat c)), (Nat.eqb_spec c a');
        first [reflexivity | lia]. }
    assert (Hrec : recognised E ww b
                   = (response_item E ww false b 0 =? Z.of_nat a')).
    { unfold recognised. now rewrite Hans. }
    assert (Hcl : map (fun c => Z.of_nat
                    (if (c =? a')%nat then S (count_labelled c bs)
                     else count_labelled c bs)) (seq 0 (Z.to_nat class_num))
                  = map (fun c => Z.of_nat (count_labelled c (bs ++ [b])))
                      (seq 0 (Z.to_nat class_num))).
    { apply map_ext. intros c. unfold count_labelled.
      rewrite List.filter_app, length_app. cbn [List.filter].
      rewrite Hlabelled. destruct (c =? a')%nat; cbn [length]; f_equal; lia. }
    rewrite Hcl.
    assert (Hsum : float.add (loss_sum_of E ww bs) (loss_item E ww false b)
                   = loss_sum_of E ww (bs ++ [b])).
    { unfold loss_sum_of. rewrite map_app. cbn [map]. now rewrite foldl_snoc. }
    rewrite Hsum, (incr_small (Z.of_nat (length bs))) by lia.
    replace (Z.of_nat (length bs) + 1) with (Z.of_nat (length (bs ++ [b])))
      by (rewrite length_app; cbn [length]; lia).
    rewrite <- app_assoc. rewrite flat_map_app. cbn [flat_map app].
    fold (evaluation_events false b).
    assert (Hhits : Z.of_nat (count_hits E ww (bs ++ [b]))
                    = Z.of_nat (count_hits E ww bs)
                      + (if recognised E ww b then 1 else 0)).
    { unfold count_hits. rewrite List.filter_app, length_app.
      cbn [List.filter]. destruct (recognised E ww b); cbn [length]; lia. }
    assert (Hcr : map (fun c => Z.of_nat (count_recognised E ww c (bs ++ [b])))
                    (seq 0 (Z.to_nat class_num))
                  = map (fun c => Z.of_nat
                           (if (c =? a')%nat && recognised E ww b
                            then S (count_recognised E ww c bs)
                            else count_recognised E ww c bs))
                      (seq 0 (Z.to_nat class_num))).
    { apply map_ext. intros c. unfold count_recognised.
      rewrite List.filter_app, length_app. cbn [List.filter].
      rewrite Hlabelled.
      destruct ((c =? a')%nat && recognised E ww b); cbn [length]; f_equal; lia. }
    rewrite Hhits, Hcr, Hrec.
    destruct (Z.eqb_spec (response_item E ww false b 0) (Z.of_nat a')).
    + rewrite (vector_incr_counts (fun c => count_recognised E ww c bs)) by lia.
      cbn [mbind option_bind]. rewrite incr_small by lia.
      do 3 f_equal. apply map_ext. intros c. now rewrite andb_true_r.
    + rewrite Z.add_0_r. do 3 f_equal.
      apply map_ext. intros c. now rewrite andb_false_r.
Qed.

(** The reporting loop over the classes. *)
Lemma report_loop_spec (ww : weights E) (class_names : list string) (n : nat)
    (bs : list batch) (ave : spec_float) (out0 : list event) (k : nat) :
  (k <= n)%nat -> length class_names = n ->
  foldl (report_class class_names)
    (Some (test_vars_after E ww n 0 bs ave, out0)) (seq 0 k)
  = Some (test_vars_after E ww n k bs ave,
          out0 ++ flat_map (report_events E ww class_names bs) (seq 0 k)).
Proof.
  intros Hk Hlen. induction k as [|k IH].
  - cbn [seq foldl flat_map]. now rewrite app_nil_r.
  - rewrite seq_S, foldl_snoc, IH by lia. cbn [Nat.add].
    unfold report_class, test_vars_after.
    cbn [mbind option_bind class_match class_counter class_accuracy ave_loss
         match_ counter].
    change (map ?g ?l) with (g <$> l).
    rewrite !list_lookup_fmap, !lookup_seq_lt by lia.
    cbn [fmap option_fmap option_map mbind option_bind Nat.add].
    destruct (lookup_lt_is_Some_2 class_names k ltac:(lia)) as [name Hname].
    rewrite Hname. cbn [mbind option_bind].
    rewrite insert_app_r_alt by (rewrite length_fmap, length_seq; lia).
    rewrite length_fmap, length_seq, Nat.sub_diag.
    replace (n - k)%nat with (S (n - S k)) by lia.
    cbn [replicate]. simpl (<[0%nat:=_]> (_ :: _)).
    rewrite (List.seq_S k 0), flat_map_app, fmap_app.
    cbn [flat_map fmap list_fmap Nat.add].
    unfold report_events at 3. rewrite Hname. cbn [default from_option id].
    rewrite <- !app_assoc, app_nil_r. reflexivity.
Qed.

(** The whole test block, for a loader that delivers labelled single
    samples. *)
Lemma test_phase_spec (class_num : Z) (class_names : list string)
    (st : state E) :
  0 <= class_num ->
  length class_names = Z.to_nat class_num ->
  Forall (test_sample class_num) (test_dataloader E) ->
  Z.of_nat (length (test_dataloader E)) < 2 ^ 64 ->
  test_phase E class_num class_names st
  = Some (mkState E (DensNet_eval (net st)) (w st) (train_passes st)
            (valid_passes st) (train_loss_ave st) (train_epochs st),
          test_vars_after E (w st) (Z.to_nat class_num) (Z.to_nat class_num)
            (test_dataloader E)
            (float.div (loss_sum_of E (w st) (test_dataloader E))
                       (float.of_Z (dataset_size E))),
          test_events E (w st) class_names (Z.to_nat class_num)
            (test_dataloader E)).
Proof.
  intros Hn Hnames Hok Hlen. unfold test_phase.
  cbn [DensNet_eval DensNet_train net_is_training].
  rewrite (test_loop_spec (w st) class_num) by assumption.
  cbn [mbind option_bind].
  change (mkTest ?a (match_ ?t) (counter ?t) (class_match ?t)
            (class_counter ?t) (class_accuracy ?t))
    with (test_vars_after E (w st) (Z.to_nat class_num) 0 (test_dataloader E) a).
  rewrite (report_loop_spec (w st) class_names (Z.to_nat class_num))
    by (first [assumption | lia]).
  cbn [mbind option_bind]. unfold test_events.
  cbn [test_vars_after match_ counter]. rewrite <- !app_assoc. reflexivity.
Qed.

End TestProperties.

(** *** The epoch loop and main *)

Section MainProperties.

Variable E : environment.

Lemma validation_valid_passes (st : state E) :
  valid_passes (fst (validation E st)) = S (valid_passes st).
Proof.
  unfold validation.
  destruct (foldl _ _ _) as [[[it tl] [m c]] out]. reflexivity.
Qed.

Lemma epoch_body_valid_passes (valid : bool) (total_iter total_epoch : Z)
    (st : state E) (epoch : Z) :
  valid_passes (fst (epoch_body E valid total_iter total_epoch st epoch))
  = if valid && (epoch mod 5 =? 0) then S (valid_passes st)
    else valid_passes st.
Proof.
  unfold epoch_body.
  destruct (train_epoch_spec E total_iter total_epoch st epoch)
    as (st1 & avg & -> & _ & Hvp & _).
  destruct (valid && (epoch mod 5 =? 0)); [|exact Hvp].
  pose proof (validation_valid_passes st1) as Hv.
  destruct (validation E st1) as [st2 out2]. cbn [fst] in *. congruence.
Qed.

(** The number of validations run by the epoch loop. *)
Lemma epoch_loop_valid_passes (total_iter start_epoch total_epoch : Z)
    (st : state E) :
  valid_passes (fst (epoch_loop E true total_iter start_epoch total_epoch st))
  = (valid_passes st
     + length (List.filter (fun epoch : Z => (epoch mod 5 =? 0)%Z)
                 (seqZ start_epoch (total_epoch + 1 - start_epoch)%Z)))%nat.
Proof.
  unfold epoch_loop.
  generalize (seqZ start_epoch (total_epoch + 1 - start_epoch)) as epochs.
  generalize (@nil event) as out. revert st.
  intros st out epochs. revert st out.
  induction epochs as [|epoch epochs IH]; intros st out.
  - cbn [foldl fst List.filter length]. lia.
  - cbn [foldl List.filter].
    pose proof (epoch_body_valid_passes true total_iter total_epoch st epoch)
      as Hbody.
    destruct (epoch_body E true total_iter total_epoch st epoch) as [st1 out1].
    rewrite IH. cbn [fst andb] in Hbody. rewrite Hbody.
    destruct (epoch mod 5 =? 0); cbn [length]; lia.
Qed.

(** In the twenty epochs of [main] the validation runs four times. *)
Lemma main_epochs_validations (total_iter : Z) (st : state E) :
  valid_passes (fst (epoch_loop E true total_iter 1 20 st))
  = (valid_passes st + 4)%nat.
Proof. rewrite epoch_loop_valid_passes. reflexivity. Qed.


(** With seventeen class names and a well-formed test loader [main] runs
    to the end; the first thing it writes is the shape [1, 17]. *)
Lemma main_returns (text : string) (w0 : weights E) :
  Z.of_nat (length (List.filter long_line (getlines text))) = 17 ->
  Forall (test_sample 17) (test_dataloader E) ->
  Z.of_nat (length (test_dataloader E)) < 2 ^ 64 ->
  exists t out,
    main E (Some text) w0
    = returns (Some (t, [cout_sizes [1; 17]; cout_str endl] ++ out)).
Proof.
  intros Hnames Hok Hlen. unfold main. cbv zeta.
  change (DensNet_forward (DensNet 17))
    with (DensNet_forward (DensNet_train true (DensNet 17))).
  rewrite (DensNet_forward_ok true 1 17) by (first [reflexivity | lia]).
  rewrite Set_Class_Names_match by (first [assumption | lia]).
  destruct (epoch_loop E true (get_count_max E) 1 20 _) as [st out'].
  rewrite (test_phase_spec E 17) by (first [assumption | lia]).
  cbn [mbind option_bind sizes]. rewrite <- app_assoc.
  eexists _, _. reflexivity.
Qed.

End MainProperties.

(** A file from which [Set_Class_Names] returns has exactly [class_num]
    long lines, and they are what it returns. *)
Lemma Set_Class_Names_returns (file : option string) (class_num : Z)
    (class_names : list string) :
  0 <= class_num < 2 ^ 64 ->
  Set_Class_Names file class_num = returns class_names ->
  exists text,
    file = Some text
    /\ class_names = List.filter long_line (getlines text)
    /\ Z.of_nat (length class_names) = class_num.
Proof.
  intros Hc Hret. destruct file as [text|]; [|discriminate].
  exists text. split; [reflexivity|].
  unfold Set_Class_Names in Hret.
  rewrite (read_class_names_spec _ [] (Z.to_nat class_num)) in Hret
    by (simpl; lia).
  destruct (Nat.leb_spec (length (List.filter long_line (getlines text)))
              (Z.to_nat class_num)) as [Hle|Hgt]; [|discriminate].
  cbn [length Nat.add app] in Hret.
  destruct (Z.eqb_spec
              (Z.of_nat (length (List.filter long_line (getlines text))))
              class_num) as [Heq|Hne]; [|discriminate].
  cbn [negb] in Hret. injection Hret as <-.
  replace (Z.to_nat class_num
           - length (List.filter long_line (getlines text)))%nat
    with 0%nat by lia.
  cbn [replicate]. rewrite app_nil_r. split; [reflexivity | exact Heq].
Qed.

(** ** The claims about the network *)

(** C1.  For every batch size [N >= 1] and every positive [num_classes],
    the forward pass of the network on an input of shape [N, 3, 224, 224]
    returns a tensor of shape [N, num_classes]; the last operation applied
    is the linear classifier, so the values are raw logits.  This holds for
    the network as constructed (training mode) and after [train(on)] for
    either mode. *)
Theorem DensNet_forward_shape (on : bool) (N num_classes : Z) (x : Tensor) :
  sizes x = [N; 3; 224; 224] -> 1 <= N -> 0 < num_classes ->
  DensNet_forward (DensNet_train on (DensNet num_classes)) x
  = Some (mkTensor [N; num_classes]
            (LinearOp 248 num_classes
               (ViewOp [N; -1]
                  (AdaptiveAvgPoolOp 1 1
                     (ReluOp (features_history on (history x)))))))
  /\ DensNet_forward (DensNet num_classes) x
     = Some (mkTensor [N; num_classes]
               (logits_history true N num_classes (history x))).
Proof.
  intros Hs HN Hc. split.
  - apply DensNet_forward_ok; first [assumption | lia].
  - rewrite <- DensNet_train_fresh.
    apply DensNet_forward_ok; first [assumption | lia].
Qed.

Lemma DensNet_forward_shape_witness :
  DensNet_forward (DensNet 17) (mkTensor [1; 3; 224; 224] (Input 0))
  = Some (mkTensor [1; 17] (logits_history true 1 17 (Input 0))).
Proof.
  exact (proj2 (DensNet_forward_shape true 1 17
                  (mkTensor [1; 3; 224; 224] (Input 0))
                  eq_refl ltac:(lia) ltac:(lia))).
Defined.

(** C2.  On an input of shape [N, Cin, H, W], [conv_block::forward]
    applies batch normalisation, then ReLU, then the 3 x 3 convolution with
    padding 1 to [Cout] channels, and returns the concatenation along the
    channel axis of the original input with the convolution output: shape
    [N, Cin + Cout, H, W]. *)
Theorem conv_block_forward_cat (on : bool) (Cin Cout N H W : Z) (x : Tensor) :
  sizes x = [N; Cin; H; W] ->
  0 < Cin -> 0 < Cout -> 1 <= H -> 1 <= W ->
  (on = true -> N * H * W <> 1) ->
  forward (train on (conv_block Cin Cout)) x
  = Some (mkTensor [N; Cin + Cout; H; W]
            (CatOp (history x)
               (ConvOp (with_padding 1 (Options Cin Cout 3))
                  (ReluOp (BatchNormOp on Cin (history x))))
               1)).
Proof. apply conv_block_forward. Qed.

Lemma conv_block_forward_cat_witness :
  forward (conv_block 64 32) (mkTensor [1; 64; 56; 56] (Input 0))
  = Some (mkTensor [1; 96; 56; 56]
            (CatOp (Input 0)
               (ConvOp (with_padding 1 (Options 64 32 3))
                  (ReluOp (BatchNormOp true 64 (Input 0))))
               1)).
Proof.
  exact (conv_block_forward_cat true 64 32 1 56 56
           (mkTensor [1; 64; 56; 56] (Input 0))
           eq_refl ltac:(lia) ltac:(lia) ltac:(lia) ltac:(lia)
           (fun _ => ltac:(lia))).
Defined.

(** C3, as the code has it.  [DenseBlock] registers [num_convs] blocks,
    block [i] being [conv_block (input_channels + i * growth_rate)
    growth_rate].  With at least one block, forward is the iterated
    composition of the blocks and the output has [input_channels +
    num_convs * growth_rate] channels.  With no block the container is
    empty and forward fails. *)
Theorem DenseBlock_channels (on : bool) (num_convs input_channels growth_rate
    N H W : Z) (x : Tensor) :
  sizes x = [N; input_channels; H; W] ->
  0 <= num_convs -> 0 < input_channels -> 0 < growth_rate ->
  1 <= H -> 1 <= W ->
  (on = true -> N * H * W <> 1) ->
  input_channels + num_convs * growth_rate < 2 ^ 63 ->
  let block := DenseBlock num_convs input_channels growth_rate in
  length (children block) = Z.to_nat num_convs
  /\ (forall i : nat, Z.of_nat i < num_convs ->
        children block !! i
        = Some (conv_block (input_channels + Z.of_nat i * growth_rate)
                  growth_rate))
  /\ (1 <= num_convs ->
        forward (train on block) x
        = foldl (fun acc m => acc ≫= forward m) (Some x)
            (children (train on block))
        /\ forward (train on block) x
           = Some (mkTensor
                     [N; input_channels + num_convs * growth_rate; H; W]
                     (dense_block_history on input_channels growth_rate
                        (Z.to_nat num_convs) (history x))))
  /\ (num_convs = 0 -> forward (train on block) x = None).
Proof.
  intros Hs Hn Hic Hg HH HW Hon Hb block. subst block.
  split; [apply DenseBlock_length|].
  split; [intros i Hi; apply DenseBlock_lookup; lia|].
  split.
  - intros H1.
    pose proof (DenseBlock_forward on num_convs input_channels growth_rate
                  N H W x Hs H1 Hic Hg HH HW Hon Hb) as Hf.
    split; [|exact Hf].
    rewrite <- chain_foldl.
    rewrite forward_unfold. unfold forward_body.
    rewrite DenseBlock_children. cbn [train kind_of children].
    unfold Sequential_forward.
    destruct (map (train on) _) as [|m ms] eqn:E; [|reflexivity].
    apply fmap_nil_inv in E. apply fmap_nil_inv in E.
    rewrite seqZ_cons in E by lia. discriminate.
  - intros ->. now apply DenseBlock_empty_forward.
Qed.

Lemma DenseBlock_channels_witness :
  forward (DenseBlock 4 64 32) (mkTensor [1; 64; 56; 56] (Input 0))
  = Some (mkTensor [1; 64 + 4 * 32; 56; 56]
            (dense_block_history true 64 32 4 (Input 0))).
Proof.
  exact (proj2 (proj1 (proj2 (proj2
           (DenseBlock_channels true 4 64 32 1 56 56
              (mkTensor [1; 64; 56; 56] (Input 0))
              eq_refl ltac:(lia) ltac:(lia) ltac:(lia) ltac:(lia) ltac:(lia)
              (fun _ => ltac:(lia)) ltac:(lia))))
           ltac:(lia))).
Defined.

(** C3 as stated fails for [num_convs = 0]: the iterated composition of
    no block returns the input, with [input_channels] channels, but the
    forward pass of the empty [DenseBlock] fails. *)
Lemma DenseBlock_no_convs_counterexample :
  let x := mkTensor [1; 64; 56; 56] (Input 0) in
  children (DenseBlock 0 64 32) = []
  /\ foldl (fun acc m => acc ≫= forward m) (Some x)
       (children (DenseBlock 0 64 32)) = Some x
  /\ forward (DenseBlock 0 64 32) x = None.
Proof. repeat split; reflexivity. Qed.

(** C4 fails on a class name file with more long lines than [class_num]:
    with [class_num = 1] and the two lines "abc" and "def",
    [class_names.at(1)] throws [std::out_of_range]; the comparison of the
    count and [std::exit(1)] are never reached. *)
Theorem Set_Class_Names_surplus_line :
  Set_Class_Names (Some ("abc" ++ endl ++ "def" ++ endl)%string) 1
  = throws "std::out_of_range".
Proof. reflexivity. Qed.

(** C5.  In the constructor, each of the four dense blocks adds
    [num_convs * growth_rate] to the channel counter, and after each but
    the last a transition block maps the count [c] to [halve c], the
    truncated half, which for an odd count loses one channel; with the
    members' initial values the count that reaches the final batch
    normalisation and the classifier is 248. *)
Theorem channel_bookkeeping (c0 g n1 n2 n3 n4 num_classes : Z) :
  0 <= c0 -> 0 <= g -> 0 <= n1 -> 0 <= n2 -> 0 <= n3 -> 0 <= n4 ->
  c0 + (n1 + n2 + n3 + n4) * g < 2 ^ 53 ->
  let c1 := c0 + n1 * g in
  let c2 := halve c1 + n2 * g in
  let c3 := halve c2 + n3 * g in
  let c4 := halve c3 + n4 * g in
  let net := DensNetImpl_build c0 g [n1; n2; n3; n4] num_classes in
  children (features net)
  = stem ++
    [DenseBlock n1 c0 g; transition_block c1 (halve c1);
     DenseBlock n2 (halve c1) g; transition_block c2 (halve c2);
     DenseBlock n3 (halve c2) g; transition_block c3 (halve c3);
     DenseBlock n4 (halve c3) g;
     BatchNorm2d c4]
  /\ classifier net = Linear c4 num_classes
  /\ num_channels net = c4
  /\ (forall c, 0 <= c < 2 ^ 53 ->
        halve c = Z.quot c 2
        /\ (Z.odd c = true -> 2 * halve c = c - 1)
        /\ (Z.even c = true -> 2 * halve c = c))
  /\ num_channels (DensNet num_classes) = 248
  /\ last (children (features (DensNetImpl_build 64 32 [4; 4; 4; 4] num_classes)))
     = Some (BatchNorm2d 248)
  /\ classifier (DensNetImpl_build 64 32 [4; 4; 4; 4] num_classes)
     = Linear 248 num_classes.
Proof.
  intros Hc Hg H1 H2 H3 H4 Hb c1 c2 c3 c4 net.
  pose proof (DensNetImpl_build_four c0 g n1 n2 n3 n4 num_classes
                Hc Hg H1 H2 H3 H4 Hb) as Hbuild.
  cbv zeta in Hbuild. unfold features_of in Hbuild.
  destruct Hbuild as (Hf & Hcl & Hnc).
  split; [subst net; now rewrite Hf|].
  split; [exact Hcl|]. split; [exact Hnc|].
  split.
  { intros c Hc'. split; [apply halve_trunc; lia|].
    split; [now apply halve_odd | now apply halve_even]. }
  repeat split; reflexivity.
Qed.

Lemma channel_bookkeeping_witness :
  num_channels (DensNetImpl_build 64 32 [4; 4; 4; 4] 17)
  = halve (halve (halve (64 + 4 * 32) + 4 * 32) + 4 * 32) + 4 * 32.
Proof.
  exact (proj1 (proj2 (proj2
           (channel_bookkeeping 64 32 4 4 4 4 17
              ltac:(lia) ltac:(lia) ltac:(lia) ltac:(lia) ltac:(lia)
              ltac:(lia) ltac:(lia))))).
Defined.

(** C6.  On an input of shape [N, Cin, H, W], [transition_block::forward]
    applies batch normalisation, then ReLU, then the 1 x 1 convolution from
    [Cin] to [Cout] channels, then average pooling with kernel 2 and stride
    2, and nothing else: no concatenation.  The output has exactly [Cout]
    channels and spatial dimensions [H / 2] and [W / 2], rounded down. *)
Theorem transition_block_forward_shape (on : bool) (Cin Cout N H W : Z)
    (x : Tensor) :
  sizes x = [N; Cin; H; W] ->
  0 < Cin -> 0 < Cout -> 2 <= H -> 2 <= W ->
  (on = true -> N * H * W <> 1) ->
  forward (train on (transition_block Cin Cout)) x
  = Some (mkTensor [N; Cout; H / 2; W / 2]
            (AvgPoolOp 2 2
               (ConvOp (Options Cin Cout 1)
                  (ReluOp (BatchNormOp on Cin (history x)))))).
Proof. apply transition_block_forward. Qed.

Lemma transition_block_forward_shape_witness :
  forward (transition_block 192 96) (mkTensor [1; 192; 57; 56] (Input 0))
  = Some (mkTensor [1; 96; 28; 28]
            (AvgPoolOp 2 2
               (ConvOp (Options 192 96 1)
                  (ReluOp (BatchNormOp true 192 (Input 0)))))).
Proof.
  exact (transition_block_forward_shape true 192 96 1 57 56
           (mkTensor [1; 192; 57; 56] (Input 0))
           eq_refl ltac:(lia) ltac:(lia) ltac:(lia) ltac:(lia)
           (fun _ => ltac:(lia))).
Defined.

(** C9.  The initialisation loop at the end of the constructor runs its
    body once on every module below the network.  Afterwards every
    convolution has a Kaiming-normal weight and its bias as the framework
    left it, every batch normalisation has weight 1 and bias 0, the linear
    layer has bias 0 and its weight as the framework left it, and the
    other modules have no parameters. *)
Theorem official_init_policy (num_classes : Z) :
  DensNet num_classes
  = official_init_pass (DensNetImpl_build 64 32 [4; 4; 4; 4] num_classes)
  /\ (forall self : DensNetImpl,
        map kind_and_parameters (DensNet_modules (official_init_pass self))
        = map (fun m => (kind_of m, official_init (kind_of m) (parameters m)))
            (DensNet_modules self))
  /\ Forall initialised (DensNet_modules (DensNet num_classes))
  /\ Forall (fun m => Forall (fun p => snd p = framework_default) (parameters m))
       (DensNet_modules (DensNetImpl_build 64 32 [4; 4; 4; 4] num_classes)).
Proof.
  split; [reflexivity|].
  split; [apply official_init_pass_modules|].
  split; [apply DensNet_initialised|].
  unfold DensNet_modules. vm_compute.
  repeat (constructor; [repeat constructor|]). constructor.
Qed.

(** ** The claims about main *)

Lemma In_flat_map_events {A : Type} (f : A -> list event) (l : list A)
    (e : event) :
  (forall a, ~ In e (f a)) -> ~ In e (flat_map f l).
Proof.
  intros Hf Hin. apply in_flat_map in Hin as (a & _ & Ha). exact (Hf a Ha).
Qed.

Lemma net_eval_not_in_training (E : environment) (total_iter total_epoch : Z)
    (st : state E) (epoch : Z) :
  ~ In net_eval (snd (train_epoch E total_iter total_epoch st epoch)).
Proof.
  destruct (train_epoch_spec E total_iter total_epoch st epoch)
    as (st' & avg & -> & _).
  cbn [snd]. rewrite !in_app_iff. intros [H|[H|H]].
  - cbn [In] in H. destruct H as [H|[H|[]]]; discriminate.
  - revert H. apply In_flat_map_events. intros b Hb.
    cbn [training_events In] in Hb.
    repeat (destruct Hb as [Hb|Hb]; [discriminate|]). exact Hb.
  - cbn [In] in H.
    repeat (destruct H as [H|H]; [discriminate|]). exact H.
Qed.

(** C7.  For a test loader that delivers one labelled sample at a time,
    the accuracy the test block stores and prints for class [c] is
    [(float) class_match[c] / (float) class_counter[c]], where
    [class_counter[c]] is the number of test samples labelled [c] and
    [class_match[c]] the number of those whose prediction is [c] as well.
    With no test sample of class [c] the quotient is 0 / 0, a NaN, and it
    is stored and printed like any other value. *)
Theorem per_class_accuracy (E : environment) (class_num : Z)
    (class_names : list string) (st : state E) (c : nat) :
  0 <= class_num ->
  length class_names = Z.to_nat class_num ->
  Forall (test_sample class_num) (test_dataloader E) ->
  Z.of_nat (length (test_dataloader E)) < 2 ^ 64 ->
  Z.of_nat c < class_num ->
  let samples := test_dataloader E in
  let n := Z.of_nat (count_labelled c samples) in
  let m := Z.of_nat (count_recognised E (w st) c samples) in
  let a := float.div (float.of_Z m) (float.of_Z n) in
  exists st' t out name,
    test_phase E class_num class_names st = Some (st', t, out)
    /\ class_names !! c = Some name
    /\ class_counter t !! c = Some n
    /\ class_match t !! c = Some m
    /\ class_accuracy t !! c = Some a
    /\ (exists before after,
          out = before
                ++ [cout_str name; cout_str ": "; cout_float a; cout_str endl]
                ++ after)
    /\ (n = 0 -> a = S754_nan).
Proof.
  intros Hn Hnames Hok Hlen Hc samples n m a.
  assert (Hc' : (c < Z.to_nat class_num)%nat) by lia.
  destruct (lookup_lt_is_Some_2 class_names c ltac:(lia)) as [name Hname].
  eexists _, _, _, name.
  split; [apply test_phase_spec; assumption|].
  split; [exact Hname|].
  unfold test_vars_after. cbn [class_counter class_match class_accuracy].
  rewrite Nat.sub_diag. cbn [replicate]. rewrite app_nil_r.
  change (map ?g ?l) with (g <$> l).
  rewrite !list_lookup_fmap, !lookup_seq_lt by assumption.
  cbn [fmap option_fmap option_map Nat.add].
  split; [reflexivity|]. split; [reflexivity|]. split; [reflexivity|].
  split.
  - unfold test_events.
    destruct (list_elem_of_split (seq 0 (Z.to_nat class_num)) c)
      as (l1 & l2 & Hsplit).
    { apply elem_of_seq. lia. }
    rewrite Hsplit, flat_map_app. cbn [flat_map].
    unfold report_events at 2. rewrite Hname. cbn [default from_option id].
    match goal with
    | |- exists before after,
           ?A ++ ?B ++ ?C ++ (?L1 ++ ?X ++ ?L2) ++ ?D = _ =>
        exists (A ++ B ++ C ++ L1), (L2 ++ D)
    end.
    rewrite <- !app_assoc. reflexivity.
  - intros Hzero. subst a.
    assert (Hm : m = 0).
    { pose proof (count_recognised_le E (w st) c samples). lia. }
    rewrite Hzero, Hm. reflexivity.
Qed.

Lemma per_class_accuracy_witness :
  exists st' t out name,
    test_phase small_environment 2 ["abc"; "def"] small_state
    = Some (st', t, out)
    /\ ["abc"; "def"] !! 1%nat = Some name
    /\ class_counter t !! 1%nat = Some 0
    /\ class_match t !! 1%nat = Some 0
    /\ class_accuracy t !! 1%nat
       = Some (float.div (float.of_Z 0) (float.of_Z 0))
    /\ (exists before after,
          out = before
                ++ [cout_str name; cout_str ": ";
                    cout_float (float.div (float.of_Z 0) (float.of_Z 0));
                    cout_str endl]
                ++ after)
    /\ (0 = 0 -> float.div (float.of_Z 0) (float.of_Z 0) = S754_nan).
Proof.
  exact (per_class_accuracy small_environment 2 ["abc"; "def"] small_state 1
           ltac:(lia) eq_refl
           ltac:(repeat constructor; exists 0; split; [reflexivity | lia])
           ltac:(vm_compute; reflexivity) ltac:(lia)).
Defined.

(** C8.  With [valid] set, the validation block runs in the epochs whose
    number is divisible by 5 and in no other.  It puts the network in
    evaluation mode, calls for every batch the forward pass, the
    log-softmax and the loss exactly as the training loop does, but neither
    [zero_grad], [backward] nor [optimizer.step()], so the weights stay as
    they are; and it prints [(float) total_match / (float) total_counter],
    where [total_counter] counts the samples and [total_match] those whose
    top-1 prediction equals their label.  In the twenty epochs of [main]
    this happens four times. *)
Theorem validation_every_fifth_epoch (E : environment)
    (total_iter total_epoch : Z) (st : state E) (epoch : Z) :
  let trained := train_epoch E total_iter total_epoch st epoch in
  let batches := valid_dataloader E (valid_passes st) in
  Z.of_nat (total_samples batches) < 2 ^ 64 ->
  let r := epoch_body E true total_iter total_epoch st epoch in
  (In net_eval (snd r) <-> epoch mod 5 = 0)
  /\ (epoch mod 5 <> 0 -> r = trained)
  /\ (epoch mod 5 = 0 ->
        snd r
        = snd trained
          ++ [cout_str ("--------------- validation --------------------" ++ endl)%string;
              net_eval]
          ++ flat_map (evaluation_events false) batches
          ++ [cout_str (endl ++ "Validation accuracy: ")%string;
              cout_float
                (float.div
                   (float.of_Z (Z.of_nat (total_hits E (w (fst trained)) false batches)))
                   (float.of_Z (Z.of_nat (total_samples batches))));
              cout_str endl]
        /\ w (fst r) = w (fst trained)
        /\ net (fst r) = DensNet_eval (net (fst trained))
        /\ net_is_training (net (fst r)) = false
        /\ Forall (fun m => is_training m = false)
             (DensNet_modules (net (fst r))))
  /\ (exists st' avg,
        trained
        = (st',
           [net_train;
            cout_str ("--------------- Training --------------------" ++ endl)%string]
           ++ flat_map (training_events true) (dataloader E (train_passes st))
           ++ [cout_str "epoch: "; cout_size epoch; cout_str "/";
               cout_size total_epoch; cout_str ", avg_loss: ";
               cout_float avg; cout_str endl]))
  /\ (forall mode b,
        training_events mode b
        = evaluation_events mode b ++ [zero_grad; backward; optimizer_step])
  /\ valid_passes (fst (epoch_loop E true total_iter 1 20 st))
     = (valid_passes st + 4)%nat.
Proof.
  intros trained batches Hb r.
  pose proof (net_eval_not_in_training E total_iter total_epoch st epoch) as Hno.
  destruct (train_epoch_spec E total_iter total_epoch st epoch)
    as (st1 & avg & Htrain & Hnet & Hvp & Htp).
  fold trained in Hno, Htrain.
  assert (Hr : r = if epoch mod 5 =? 0
                   then (fst (validation E (fst trained)),
                         snd trained ++ snd (validation E (fst trained)))
                   else trained).
  { subst r. unfold epoch_body. fold trained. destruct trained as [s o].
    cbn [andb fst snd]. destruct (epoch mod 5 =? 0); [|reflexivity].
    destruct (validation E s); reflexivity. }
  assert (Hval : validation E (fst trained)
                 = (mkState E (DensNet_eval (net (fst trained)))
                      (w (fst trained)) (train_passes (fst trained))
                      (S (valid_passes (fst trained)))
                      (train_loss_ave (fst trained))
                      (train_epochs (fst trained)),
                    [cout_str ("--------------- validation --------------------" ++ endl)%string;
                     net_eval]
                    ++ flat_map (evaluation_events false) batches
                    ++ [cout_str (endl ++ "Validation accuracy: ")%string;
                        cout_float
                          (float.div
                             (float.of_Z (Z.of_nat (total_hits E (w (fst trained)) false batches)))
                             (float.of_Z (Z.of_nat (total_samples batches))));
                        cout_str endl])).
  { pose proof (validation_spec E (fst trained)) as Hv. cbv zeta in Hv.
    rewrite Htrain in Hv |- *. cbn [fst] in Hv |- *. rewrite Hvp in Hv.
    fold batches in Hv. rewrite Hvp. apply Hv, Hb. }
  rewrite Hval in Hr. cbn [fst snd] in Hr.
  split.
  { rewrite Hr. destruct (Z.eqb_spec (epoch mod 5) 0) as [H5|H5].
    - cbn [snd]. split; [intros _; exact H5|]. intros _.
      rewrite in_app_iff. right. right. left. reflexivity.
    - split; [intros Hin; exfalso; exact (Hno Hin) | intros H; contradiction]. }
  split.
  { intros H5. rewrite Hr. destruct (Z.eqb_spec (epoch mod 5) 0); [contradiction|].
    reflexivity. }
  split.
  { intros H5. rewrite Hr. destruct (Z.eqb_spec (epoch mod 5) 0); [|contradiction].
    cbn [fst snd net w]. repeat split.
    unfold DensNet_modules, DensNet_eval, DensNet_train. cbn [features classifier].
    apply Forall_app. split; apply modules_train. }
  split.
  { exists st1, avg. exact Htrain. }
  split; [intros mode b; reflexivity|].
  apply main_epochs_validations.
Qed.

Lemma validation_every_fifth_epoch_witness :
  In net_eval (snd (epoch_body small_environment true 1 20 small_state 5))
  <-> 5 mod 5 = 0.
Proof.
  exact (proj1 (validation_every_fifth_epoch small_environment 1 20
                  small_state 5 ltac:(vm_compute; reflexivity))).
Defined.

(** C10, as the code has it.  After the test loop, [ave_loss] is the sum
    the loop accumulated divided by [(float) dataset.size()], the size of
    the training set; the loop's own counter holds the number of test
    samples and is not the divisor.  The value is stored, not written:
    every float the test block writes is a per-class accuracy or the
    overall accuracy. *)
Theorem average_test_loss (E : environment) (class_num : Z)
    (class_names : list string) (st : state E) :
  0 <= class_num ->
  length class_names = Z.to_nat class_num ->
  Forall (test_sample class_num) (test_dataloader E) ->
  Z.of_nat (length (test_dataloader E)) < 2 ^ 64 ->
  let samples := test_dataloader E in
  exists st' t out,
    test_phase E class_num class_names st = Some (st', t, out)
    /\ ave_loss t
       = float.div
           (foldl float.add float.zero (map (loss_item E (w st) false) samples))
           (float.of_Z (dataset_size E))
    /\ counter t = Z.of_nat (length samples)
    /\ (forall f, In (cout_float f) out ->
          (exists c : nat, f = accuracy_of E (w st) c samples)
          \/ f = float.div (float.of_Z (match_ t)) (float.of_Z (counter t))).
Proof.
  intros Hn Hnames Hok Hlen samples.
  eexists _, _, _.
  split; [apply test_phase_spec; assumption|].
  split; [reflexivity|]. split; [reflexivity|].
  intros f Hin. unfold test_events in Hin.
  rewrite !in_app_iff in Hin. destruct Hin as [H|[H|[H|[H|H]]]].
  - cbn [In] in H. repeat (destruct H as [H|H]; [discriminate|]). destruct H.
  - exfalso. revert H. apply In_flat_map_events. intros b Hb.
    cbn [evaluation_events In] in Hb.
    repeat (destruct Hb as [Hb|Hb]; [discriminate|]). exact Hb.
  - cbn [In] in H. destruct H as [H|[]]. discriminate.
  - apply in_flat_map in H as (c & _ & Hc).
    cbn [report_events In] in Hc.
    destruct Hc as [Hc|[Hc|[Hc|[Hc|[]]]]]; try discriminate.
    left. exists c. now inversion Hc.
  - cbn [In] in H. destruct H as [H|[H|[H|[]]]]; try discriminate.
    right. now inversion H.
Qed.

Lemma average_test_loss_witness :
  exists st' t out,
    test_phase small_environment 2 ["abc"; "def"] small_state
    = Some (st', t, out)
    /\ ave_loss t
       = float.div
           (foldl float.add float.zero
              (map (loss_item small_environment tt false)
                 (test_dataloader small_environment)))
           (float.of_Z 2)
    /\ counter t = 1
    /\ (forall f, In (cout_float f) out ->
          (exists c : nat,
             f = accuracy_of small_environment tt c
                   (test_dataloader small_environment))
          \/ f = float.div (float.of_Z (match_ t)) (float.of_Z (counter t))).
Proof.
  exact (average_test_loss small_environment 2 ["abc"; "def"] small_state
           ltac:(lia) eq_refl
           ltac:(repeat constructor; exists 0; split; [reflexivity | lia])
           ltac:(vm_compute; reflexivity)).
Defined.

(** C10 as stated fails: no average test loss is printed.  In the small
    environment the test block leaves 3 / 2 in [ave_loss], and the floats it
    writes are the accuracies 1, NaN and 1. *)
Lemma average_test_loss_not_printed_counterexample :
  exists st' t out,
    test_phase small_environment 2 ["abc"; "def"] small_state
    = Some (st', t, out)
    /\ ave_loss t = S754_finite false 12582912 (-23)
    /\ ~ In (cout_float (ave_loss t)) out.
Proof.
  eexists _, _, _. split; [vm_compute; reflexivity|].
  split; [reflexivity|].
  cbn [ave_loss]. intros Hin. cbn [In] in Hin.
  repeat (destruct Hin as [Hin|Hin]; [discriminate|]). exact Hin.
Qed.

(** * Further properties *)

(** ** Further properties of the network *)

(** *** What a layer that returns tells about its input *)

Lemma batch_norm_inv (training : bool) (nf : Z) (x y : Tensor) :
  batch_norm training nf x = Some y ->
  exists n h w,
    sizes x = [n; nf; h; w]
    /\ (training = true -> n * h * w <> 1)
    /\ y = mkTensor [n; nf; h; w] (BatchNormOp training nf (history x)).
Proof.
  unfold batch_norm.
  destruct (sizes x) as [|n [|c [|h [|w [|? ?]]]]]; try discriminate.
  destruct (Z.eqb_spec c nf) as [->|]; [|discriminate]. cbn [andb].
  destruct training; cbn [andb negb].
  - destruct (Z.eqb_spec (n * h * w) 1); [discriminate|].
    intros [= <-]. exists n, h, w. repeat split; auto.
  - intros [= <-]. exists n, h, w. repeat split; auto; discriminate.
Qed.

Lemma conv2d_inv (o : Conv2dOptions) (x y : Tensor) :
  conv2d o x = Some y ->
  exists n h w,
    sizes x = [n; in_channels o; h; w]
    /\ 0 < in_channels o /\ 0 < out_channels o
    /\ kernel_size o <= h + 2 * padding o
    /\ kernel_size o <= w + 2 * padding o
    /\ y = mkTensor
             [n; out_channels o;
              window_out h (kernel_size o) (stride o) (padding o) 1;
              window_out w (kernel_size o) (stride o) (padding o) 1]
             (ConvOp o (history x)).
Proof.
  unfold conv2d.
  destruct (sizes x) as [|n [|c [|h [|w [|? ?]]]]]; try discriminate.
  destruct (Z.ltb_spec 0 (in_channels o)); [|discriminate].
  destruct (Z.ltb_spec 0 (out_channels o)); [|discriminate].
  destruct (Z.eqb_spec c (in_channels o)) as [->|]; [|discriminate].
  destruct (Z.leb_spec (kernel_size o) (h + 2 * padding o)); [|discriminate].
  destruct (Z.leb_spec (kernel_size o) (w + 2 * padding o)); [|discriminate].
  intros [= <-]. exists n, h, w. repeat split; auto.
Qed.

Lemma max_pool2d_inv (k s p d : Z) (c : bool) (x y : Tensor) :
  max_pool2d k s p d c x = Some y ->
  exists n ch h w,
    sizes x = [n; ch; h; w]
    /\ 1 <= window_out h k s p d /\ 1 <= window_out w k s p d
    /\ y = mkTensor [n; ch; window_out h k s p d; window_out w k s p d]
             (MaxPoolOp k s p d c (history x)).
Proof.
  unfold max_pool2d.
  destruct (sizes x) as [|n [|ch [|h [|w [|? ?]]]]]; try discriminate.
  destruct (negb c); [|discriminate].
  destruct (2 * p <=? k); [|discriminate].
  destruct (Z.leb_spec 1 (window_out h k s p d)); [|discriminate].
  destruct (Z.leb_spec 1 (window_out w k s p d)); [|discriminate].
  intros [= <-]. exists n, ch, h, w. repeat split; auto.
Qed.

Lemma max_pool2d_ok (n c h w : Z) (x : Tensor) :
  sizes x = [n; c; h; w] ->
  1 <= window_out h 3 2 1 1 -> 1 <= window_out w 3 2 1 1 ->
  max_pool2d 3 2 1 1 false x
  = Some (mkTensor [n; c; window_out h 3 2 1 1; window_out w 3 2 1 1]
            (MaxPoolOp 3 2 1 1 false (history x))).
Proof.
  intros Hs Hh Hw. unfold max_pool2d. rewrite Hs. cbn [negb andb Z.mul Z.leb].
  change (2 * 1 <=? 3) with true. cbn [andb].
  destruct (Z.leb_spec 1 (window_out h 3 2 1 1)); [|lia].
  destruct (Z.leb_spec 1 (window_out w 3 2 1 1)); [|lia].
  reflexivity.
Qed.

Lemma avg_pool2d_inv (x y : Tensor) :
  avg_pool2d 2 2 x = Some y ->
  exists n c h w,
    sizes x = [n; c; h; w] /\ 2 <= h /\ 2 <= w
    /\ y = mkTensor [n; c; h / 2; w / 2] (AvgPoolOp 2 2 (history x)).
Proof.
  unfold avg_pool2d.
  destruct (sizes x) as [|n [|c [|h [|w [|? ?]]]]]; try discriminate.
  rewrite !window_out_halve.
  destruct (Z.leb_spec 1 (h / 2)) as [Hh|]; [|discriminate].
  destruct (Z.leb_spec 1 (w / 2)) as [Hw|]; [|discriminate].
  intros [= <-]. exists n, c, h, w.
  assert (2 <= h).
  { destruct (Z.le_gt_cases 2 h); [assumption|].
    assert (h / 2 <= 0); [|lia].
    destruct (Z.le_gt_cases 0 h).
    - rewrite Z.div_small by lia. lia.
    - apply Z.lt_le_incl, Z.div_lt_upper_bound; lia. }
  assert (2 <= w).
  { destruct (Z.le_gt_cases 2 w); [assumption|].
    assert (w / 2 <= 0); [|lia].
    destruct (Z.le_gt_cases 0 w).
    - rewrite Z.div_small by lia. lia.
    - apply Z.lt_le_incl, Z.div_lt_upper_bound; lia. }
  repeat split; auto.
Qed.

Lemma conv_block_inv (on : bool) (cin cout : Z) (x y : Tensor) :
  forward (train on (conv_block cin cout)) x = Some y ->
  exists n h w,
    sizes x = [n; cin; h; w]
    /\ 0 < cin /\ 0 < cout /\ 1 <= h /\ 1 <= w
    /\ (on = true -> n * h * w <> 1)
    /\ y = mkTensor [n; cin + cout; h; w]
             (conv_block_history on cin cout (history x)).
Proof.
  intros Hf.
  rewrite forward_unfold in Hf. unfold forward_body in Hf. simpl in Hf.
  destruct (batch_norm on cin x) as [x1|] eqn:Hbn; [|discriminate].
  apply batch_norm_inv in Hbn as (n & h & w & Hs & Hon & ->).
  simpl in Hf.
  destruct (conv2d _ _) as [x2|] eqn:Hconv; [|discriminate].
  apply conv2d_inv in Hconv as (n' & h' & w' & Hs' & Hi & Ho & Hh & Hw & ->).
  simpl in Hs', Hi, Ho, Hh, Hw, Hf. injection Hs' as <- <- <-.
  rewrite !window_out_same in Hf.
  unfold cat2_dim1 in Hf. simpl in Hf. rewrite Hs, !Z.eqb_refl in Hf.
  simpl in Hf. injection Hf as <-.
  exists n, h, w. repeat split; auto; lia.
Qed.

Lemma transition_block_inv (on : bool) (cin cout : Z) (x y : Tensor) :
  forward (train on (transition_block cin cout)) x = Some y ->
  exists n h w,
    sizes x = [n; cin; h; w]
    /\ 0 < cin /\ 0 < cout /\ 2 <= h /\ 2 <= w
    /\ (on = true -> n * h * w <> 1)
    /\ y = mkTensor [n; cout; h / 2; w / 2]
             (transition_block_history on cin cout (history x)).
Proof.
  intros Hf.
  rewrite forward_unfold in Hf. unfold forward_body in Hf. simpl in Hf.
  destruct (batch_norm on cin x) as [x1|] eqn:Hbn; [|discriminate].
  apply batch_norm_inv in Hbn as (n & h & w & Hs & Hon & ->).
  simpl in Hf.
  destruct (conv2d _ _) as [x2|] eqn:Hconv; [|discriminate].
  apply conv2d_inv in Hconv as (n' & h' & w' & Hs' & Hi & Ho & Hh & Hw & ->).
  simpl in Hs', Hi, Ho, Hh, Hw, Hf. injection Hs' as <- <- <-.
  rewrite !window_out_pointwise in Hf.
  destruct (avg_pool2d 2 2 _) as [x3|] eqn:Hpool; [|discriminate].
  apply avg_pool2d_inv in Hpool as (n' & c' & h' & w' & Hs' & Hh2 & Hw2 & ->).
  simpl in Hs'. injection Hs' as <- <- <- <-.
  simpl in Hf. injection Hf as <-.
  exists n, h, w. repeat split; auto.
Qed.

(** X1.  [conv_block::forward] returns exactly on the 4-D inputs with
    [input_channels] channels and a non-empty image (and, in training
    mode, more than one value per channel); every other input is refused.
    When it returns, the result is the input followed, along the channel
    dimension, by the output of the three layers. *)
Theorem conv_block_accepts (on : bool) (cin cout : Z) (x y : Tensor) :
  forward (train on (conv_block cin cout)) x = Some y
  <-> exists n h w,
        sizes x = [n; cin; h; w]
        /\ 0 < cin /\ 0 < cout /\ 1 <= h /\ 1 <= w
        /\ (on = true -> n * h * w <> 1)
        /\ y = mkTensor [n; cin + cout; h; w]
                 (conv_block_history on cin cout (history x)).
Proof.
  split.
  - apply conv_block_inv.
  - intros (n & h & w & Hs & Hi & Ho & Hh & Hw & Hon & ->).
    now apply conv_block_forward.
Qed.

(** X2.  [transition_block::forward] returns exactly on the 4-D inputs
    with [input_channels] channels whose height and width are at least 2
    (and, in training mode, more than one value per channel): an image of
    height or width 1 is refused, it is not pooled to size 0. *)
Theorem transition_block_accepts (on : bool) (cin cout : Z) (x y : Tensor) :
  forward (train on (transition_block cin cout)) x = Some y
  <-> exists n h w,
        sizes x = [n; cin; h; w]
        /\ 0 < cin /\ 0 < cout /\ 2 <= h /\ 2 <= w
        /\ (on = true -> n * h * w <> 1)
        /\ y = mkTensor [n; cout; h / 2; w / 2]
                 (transition_block_history on cin cout (history x)).
Proof.
  split.
  - apply transition_block_inv.
  - intros (n & h & w & Hs & Hi & Ho & Hh & Hw & Hon & ->).
    now apply transition_block_forward.
Qed.

(** *** Sizes through the network *)

Lemma stem_out_bounds (h : Z) :
  29 <= h ->
  15 <= window_out h 7 2 3 1 /\ 8 <= stem_out h
  /\ 4 <= stem_out h / 2 /\ 2 <= stem_out h / 2 / 2 /\ 1 <= features_out h.
Proof.
  intros Hh. unfold features_out, stem_out, window_out.
  Z.div_mod_to_equations. lia.
Qed.

Lemma stem_out_small (h : Z) :
  7 <= h + 2 * 3 -> 2 <= stem_out h -> 2 <= stem_out h / 2 ->
  2 <= stem_out h / 2 / 2 -> 29 <= h.
Proof.
  unfold stem_out, window_out. intros H0 H1 H2 H3.
  Z.div_mod_to_equations. lia.
Qed.

Lemma features_out_224 : features_out 224 = 7.
Proof. reflexivity. Qed.

Lemma chain_cons_Some (m : Module) (ms : list Module) (x y : Tensor) :
  chain (m :: ms) x = Some y ->
  exists x', forward m x = Some x' /\ chain ms x' = Some y.
Proof.
  rewrite chain_cons. destruct (forward m x) as [x'|]; [|discriminate].
  intros H. now exists x'.
Qed.

(** A chain of [conv_block]s keeps the batch size and the image size. *)
Lemma conv_blocks_chain_inv {A : Type} (on : bool) (cin : A -> Z) (g : Z)
    (l : list A) (x y : Tensor) (n c h w : Z) :
  chain (map (fun i => train on (conv_block (cin i) g)) l) x = Some y ->
  sizes x = [n; c; h; w] ->
  exists c', sizes y = [n; c'; h; w].
Proof.
  revert x c. induction l as [|i l IH]; intros x c Hc Hs.
  - injection Hc as <-. now exists c.
  - cbn [map] in Hc. apply chain_cons_Some in Hc as (x' & Hf & Hc).
    apply conv_block_inv in Hf as (n' & h' & w' & Hs' & _ & _ & _ & _ & _ & ->).
    rewrite Hs in Hs'. injection Hs' as <- _ <- <-.
    eapply IH; [exact Hc | reflexivity].
Qed.

Lemma DenseBlock_inv (on : bool) (num_convs ic g : Z) (x y : Tensor)
    (n c h w : Z) :
  forward (train on (DenseBlock num_convs ic g)) x = Some y ->
  sizes x = [n; c; h; w] ->
  exists c', sizes y = [n; c'; h; w].
Proof.
  rewrite DenseBlock_children, forward_unfold. unfold forward_body.
  cbn [train kind_of children]. rewrite map_map.
  unfold Sequential_forward.
  destruct (map _ (seqZ 0 num_convs)) as [|m ms] eqn:E; [discriminate|].
  rewrite <- E. apply conv_blocks_chain_inv.
Qed.

Lemma transition_block_sizes_inv (on : bool) (cin cout : Z) (x y : Tensor)
    (n c h w : Z) :
  forward (train on (transition_block cin cout)) x = Some y ->
  sizes x = [n; c; h; w] ->
  2 <= h /\ 2 <= w /\ sizes y = [n; cout; h / 2; w / 2].
Proof.
  intros Hf Hs.
  apply transition_block_inv in Hf
    as (n' & h' & w' & Hs' & _ & _ & Hh & Hw & _ & ->).
  rewrite Hs in Hs'. injection Hs' as <- _ <- <-. auto.
Qed.

(** If [features] returns, the image was at least 29 x 29 and, in
    training mode, the last feature map had more than one value per
    channel. *)
Lemma features_chain_inv (on : bool) (N H W : Z) (x y : Tensor) :
  chain (map (train on) DensNet_features) x = Some y ->
  sizes x = [N; 3; H; W] ->
  29 <= H /\ 29 <= W
  /\ (on = true -> N * features_out H * features_out W <> 1)
  /\ sizes y = [N; 248; features_out H; features_out W].
Proof.
  intros Hc Hs. unfold DensNet_features, stem in Hc. cbn [app map] in Hc.
  (* stem *)
  apply chain_cons_Some in Hc as (x1 & Hf & Hc).
  rewrite forward_unfold in Hf. unfold forward_body in Hf. simpl in Hf.
  apply conv2d_inv in Hf as (n & h & w & Hs1 & _ & _ & Hh0 & Hw0 & ->).
  rewrite Hs in Hs1. injection Hs1 as <- <- <-. simpl in Hh0, Hw0.
  apply chain_cons_Some in Hc as (x2 & Hf & Hc).
  rewrite forward_unfold in Hf. unfold forward_body in Hf. simpl in Hf.
  apply batch_norm_inv in Hf as (n & h & w & Hs2 & _ & ->).
  simpl in Hs2. injection Hs2 as <- <- <-.
  apply chain_cons_Some in Hc as (x3 & Hf & Hc).
  rewrite forward_unfold in Hf. unfold forward_body in Hf. simpl in Hf.
  injection Hf as <-.
  apply chain_cons_Some in Hc as (x4 & Hf & Hc).
  rewrite forward_unfold in Hf. unfold forward_body in Hf. simpl in Hf.
  apply max_pool2d_inv in Hf as (n & ch & h & w & Hs4 & _ & _ & ->).
  simpl in Hs4. injection Hs4 as <- <- <- <-.
  fold (stem_out H) in Hc. fold (stem_out W) in Hc.
  (* dense blocks and transitions *)
  apply chain_cons_Some in Hc as (x5 & Hf & Hc).
  eapply DenseBlock_inv in Hf as (c5 & Hs5); [|reflexivity].
  apply chain_cons_Some in Hc as (x6 & Hf & Hc).
  eapply transition_block_sizes_inv in Hf as (Hh1 & Hw1 & Hs6); [|exact Hs5].
  apply chain_cons_Some in Hc as (x7 & Hf & Hc).
  eapply DenseBlock_inv in Hf as (c7 & Hs7); [|exact Hs6].
  apply chain_cons_Some in Hc as (x8 & Hf & Hc).
  eapply transition_block_sizes_inv in Hf as (Hh2 & Hw2 & Hs8); [|exact Hs7].
  apply chain_cons_Some in Hc as (x9 & Hf & Hc).
  eapply DenseBlock_inv in Hf as (c9 & Hs9); [|exact Hs8].
  apply chain_cons_Some in Hc as (x10 & Hf & Hc).
  eapply transition_block_sizes_inv in Hf as (Hh3 & Hw3 & Hs10); [|exact Hs9].
  apply chain_cons_Some in Hc as (x11 & Hf & Hc).
  eapply DenseBlock_inv in Hf as (c11 & Hs11); [|exact Hs10].
  (* final batch normalisation *)
  apply chain_cons_Some in Hc as (x12 & Hf & Hc).
  rewrite forward_unfold in Hf. unfold forward_body in Hf. simpl in Hf.
  apply batch_norm_inv in Hf as (n & h & w & Hs12 & Hon & ->).
  rewrite Hs11 in Hs12. injection Hs12 as <- _ <- <-.
  cbn [chain] in Hc. injection Hc as <-.
  split; [apply stem_out_small; assumption|].
  split; [apply stem_out_small; assumption|].
  split; [exact Hon | reflexivity].
Qed.

(** The output of [features] on an image of at least 29 x 29. *)
Lemma features_forward_any (on : bool) (N H W : Z) (x : Tensor) :
  sizes x = [N; 3; H; W] -> 1 <= N -> 29 <= H -> 29 <= W ->
  (on = true -> N * features_out H * features_out W <> 1) ->
  chain (map (train on) DensNet_features) x
  = Some (mkTensor [N; 248; features_out H; features_out W]
            (features_history on (history x))).
Proof.
  intros Hs HN HH HW Hon.
  destruct (stem_out_bounds H HH) as (Hh1 & Hh2 & Hh3 & Hh4 & Hh5).
  destruct (stem_out_bounds W HW) as (Hw1 & Hw2 & Hw3 & Hw4 & Hw5).
  unfold features_out in *.
  unfold DensNet_features, stem. cbn [app map].
  enter_layer.
  rewrite (conv2d_ok _ N H W) by (simpl; first [assumption | lia]).
  leave_layer.
  enter_layer.
  rewrite (batch_norm_ok on 64 N (window_out H 7 2 3 1) (window_out W 7 2 3 1))
    by (first [reflexivity | nia]).
  leave_layer.
  enter_layer. leave_layer.
  enter_layer.
  rewrite (max_pool2d_ok N 64 (window_out H 7 2 3 1) (window_out W 7 2 3 1))
    by (first [reflexivity | fold (stem_out H); fold (stem_out W); lia]).
  leave_layer. fold (stem_out H). fold (stem_out W).
  rewrite chain_cons, (DenseBlock_forward on 4 64 32 N (stem_out H) (stem_out W))
    by (first [reflexivity | nia]).
  cbn [mbind option_bind history].
  rewrite chain_cons,
    (transition_block_forward on 192 96 N (stem_out H) (stem_out W))
    by (first [reflexivity | nia]).
  cbn [mbind option_bind history].
  rewrite chain_cons,
    (DenseBlock_forward on 4 96 32 N (stem_out H / 2) (stem_out W / 2))
    by (first [reflexivity | nia]).
  cbn [mbind option_bind history].
  rewrite chain_cons,
    (transition_block_forward on 224 112 N (stem_out H / 2) (stem_out W / 2))
    by (first [reflexivity | nia]).
  cbn [mbind option_bind history].
  rewrite chain_cons,
    (DenseBlock_forward on 4 112 32 N (stem_out H / 2 / 2) (stem_out W / 2 / 2))
    by (first [reflexivity | nia]).
  cbn [mbind option_bind history].
  rewrite chain_cons,
    (transition_block_forward on 240 120 N
       (stem_out H / 2 / 2) (stem_out W / 2 / 2))
    by (first [reflexivity | nia]).
  cbn [mbind option_bind history].
  rewrite chain_cons,
    (DenseBlock_forward on 4 120 32 N
       (stem_out H / 2 / 2 / 2) (stem_out W / 2 / 2 / 2))
    by (first [reflexivity | lia | assumption]).
  cbn [mbind option_bind history].
  enter_layer.
  rewrite (batch_norm_ok on 248 N
             (stem_out H / 2 / 2 / 2) (stem_out W / 2 / 2 / 2))
    by (first [reflexivity | assumption]).
  reflexivity.
Qed.

Lemma DensNet_features_forward (on : bool) (num_classes : Z) (x : Tensor) :
  forward (features (DensNet_train on (DensNet num_classes))) x
  = chain (map (train on) DensNet_features) x.
Proof.
  unfold DensNet_train. cbn [features].
  rewrite features_DensNet, train_for_each_module, forward_for_each_module.
  rewrite forward_unfold. reflexivity.
Qed.

(** X3.  The forward pass of the network does not depend on the nominal
    224 x 224: on every input [N, 3, H, W] with [N >= 1] and [H, W >= 29]
    it returns logits of shape [N, num_classes].  In training mode the last
    feature map must hold more than one value per channel. *)
Theorem DensNet_forward_any_size (on : bool) (N H W num_classes : Z)
    (x : Tensor) :
  sizes x = [N; 3; H; W] -> 1 <= N -> 29 <= H -> 29 <= W ->
  0 < num_classes ->
  (on = true -> N * features_out H * features_out W <> 1) ->
  DensNet_forward (DensNet_train on (DensNet num_classes)) x
  = Some (mkTensor [N; num_classes]
            (logits_history on N num_classes (history x))).
Proof.
  intros Hs HN HH HW Hc Hon.
  destruct (stem_out_bounds H HH) as (_ & _ & _ & _ & Hh5).
  destruct (stem_out_bounds W HW) as (_ & _ & _ & _ & Hw5).
  unfold DensNet_forward. rewrite DensNet_features_forward.
  rewrite (features_forward_any on N H W x) by assumption.
  cbn [mbind option_bind relu sizes history adaptive_avg_pool2d].
  change (1 <=? 248) with true.
  destruct (Z.leb_spec 1 (features_out H)); [|lia].
  destruct (Z.leb_spec 1 (features_out W)); [|lia].
  cbn [andb mbind option_bind]. unfold view_rows, size0, numel.
  cbn [sizes head default from_option id foldr history].
  replace (N * (248 * (1 * (1 * 1)))) with (248 * N) by lia.
  rewrite Z.mod_mul, Z.div_mul by lia.
  destruct (Z.ltb_spec 0 N); [|lia]. cbn [andb Z.eqb mbind option_bind].
  unfold DensNet_train. cbn [classifier].
  rewrite classifier_DensNet, train_for_each_module, forward_for_each_module.
  rewrite forward_unfold. unfold forward_body, linear.
  cbn [train Linear kind_of sizes history Z.eqb Pos.eqb andb].
  destruct (Z.leb_spec 0 num_classes); [|lia]. reflexivity.
Qed.

Lemma DensNet_forward_any_size_witness :
  DensNet_forward (DensNet_train false (DensNet 17))
    (mkTensor [1; 3; 32; 40] (Input 0))
  = Some (mkTensor [1; 17] (logits_history false 1 17 (Input 0))).
Proof.
  exact (DensNet_forward_any_size false 1 32 40 17
           (mkTensor [1; 3; 32; 40] (Input 0))
           eq_refl ltac:(lia) ltac:(lia) ltac:(lia) ltac:(lia)
           (fun H => ltac:(discriminate H))).
Defined.

(** X4.  The inputs of shape [N, 3, H, W] that the forward pass refuses:
    an image with fewer than 29 rows or 29 columns does not survive the
    stride and pooling chain; an empty batch is refused by [view]; and in
    training mode so is an input whose last feature map holds a single
    value per channel (one image of fewer than 61 rows and columns). *)
Theorem DensNet_forward_refuses (on : bool) (N H W num_classes : Z)
    (x : Tensor) :
  sizes x = [N; 3; H; W] ->
  H < 29 \/ W < 29 \/ N < 1
  \/ (on = true /\ N * features_out H * features_out W = 1) ->
  DensNet_forward (DensNet_train on (DensNet num_classes)) x = None.
Proof.
  intros Hs Hbad. unfold DensNet_forward. rewrite DensNet_features_forward.
  destruct (chain _ x) as [y|] eqn:Hc; [|reflexivity].
  apply (features_chain_inv on N H W) in Hc as (HH & HW & Hon & Hy);
    [|exact Hs].
  destruct Hbad as [Hbad|[Hbad|[Hbad|[-> Hbad]]]];
    try (exfalso; first [lia | now apply Hon]).
  destruct y as [sy hy]. cbn [sizes] in Hy. subst sy.
  unfold relu, adaptive_avg_pool2d, view_rows, size0.
  cbn [mbind option_bind sizes history].
  destruct ((1 <=? 248) && (1 <=? features_out H) && (1 <=? features_out W));
    [|reflexivity].
  cbn [mbind option_bind sizes head default from_option id].
  destruct (Z.ltb_spec 0 N); [lia | reflexivity].
Qed.

Lemma DensNet_forward_refuses_witness :
  DensNet_forward (DensNet_train false (DensNet 17))
    (mkTensor [1; 3; 28; 224] (Input 0)) = None.
Proof.
  apply (DensNet_forward_refuses false 1 28 224 17
           (mkTensor [1; 3; 28; 224] (Input 0))); [reflexivity | left; lia].
Defined.

(** In training mode one 32 x 32 image is refused, in evaluation mode it
    is accepted. *)
Example DensNet_forward_single_small_image :
  DensNet_forward (DensNet 17) (mkTensor [1; 3; 32; 32] (Input 0)) = None
  /\ option_map sizes
       (DensNet_forward (DensNet_eval (DensNet 17))
          (mkTensor [1; 3; 32; 32] (Input 0))) = Some [1; 17].
Proof. split; vm_compute; reflexivity. Qed.

Lemma features_out_one (h : Z) :
  29 <= h -> (features_out h = 1 <-> h <= 60).
Proof.
  intros Hh. unfold features_out, stem_out, window_out.
  split; intros H; Z.div_mod_to_equations; lia.
Qed.

(** *** Dense blocks compose *)

Lemma DenseBlock_children_app (n1 n2 c g : Z) :
  0 <= c -> 0 <= g -> 0 <= n1 -> 0 <= n2 ->
  c + (n1 + n2) * g < 2 ^ 63 ->
  children (DenseBlock (n1 + n2) c g)
  = children (DenseBlock n1 c g) ++ children (DenseBlock n2 (c + n1 * g) g).
Proof.
  intros Hc Hg H1 H2 Hb. rewrite !DenseBlock_children. cbn [children].
  rewrite seqZ_app, map_app by lia. f_equal.
  rewrite Z.add_0_l, <- (Z.add_0_r n1) at 1.
  rewrite <- fmap_add_seqZ.
  change (map ?f (?h <$> ?l)) with (map f (map h l)). rewrite map_map.
  apply map_ext_in. intros i Hi.
  apply list_elem_of_In, elem_of_seqZ in Hi.
  assert (0 <= g * i <= n2 * g) by nia.
  assert (0 <= g * n1 <= n1 * g) by nia.
  assert (0 <= g * (n1 + i)) by nia.
  rewrite !mul64_small, !add64_small by nia.
  f_equal. lia.
Qed.

(** X5.  A dense block of [n1 + n2] convolutions is a dense block of [n1]
    followed by a dense block of [n2] that starts at the channel count the
    first one ends with: same children, and the forward pass of the long
    block is the composition of the two forward passes, on every input. *)
Theorem DenseBlock_splits (on : bool) (n1 n2 c g : Z) (x : Tensor) :
  0 <= c -> 0 <= g -> 1 <= n1 -> 1 <= n2 ->
  c + (n1 + n2) * g < 2 ^ 63 ->
  children (DenseBlock (n1 + n2) c g)
  = children (DenseBlock n1 c g) ++ children (DenseBlock n2 (c + n1 * g) g)
  /\ forward (train on (DenseBlock (n1 + n2) c g)) x
     = forward (train on (DenseBlock n1 c g)) x
       ≫= forward (train on (DenseBlock n2 (c + n1 * g) g)).
Proof.
  intros Hc Hg H1 H2 Hb.
  pose proof (DenseBlock_children_app n1 n2 c g Hc Hg
                ltac:(lia) ltac:(lia) Hb) as Happ.
  split; [exact Happ|].
  assert (Hfw : forall n c', 1 <= n ->
            forall y, forward (train on (DenseBlock n c' g)) y
                      = chain (map (train on) (children (DenseBlock n c' g))) y).
  { intros n c' Hn y. rewrite forward_unfold. unfold forward_body.
    rewrite DenseBlock_children. cbn [train kind_of children].
    unfold Sequential_forward.
    destruct (map (train on) _) as [|m ms] eqn:E; [|reflexivity].
    apply fmap_nil_inv in E. apply fmap_nil_inv in E.
    rewrite seqZ_cons in E by lia. discriminate. }
  rewrite (Hfw (n1 + n2) c) by lia. rewrite Happ, map_app, chain_app.
  rewrite <- (Hfw n1 c) by lia.
  destruct (forward (train on (DenseBlock n1 c g)) x) as [y|]; [|reflexivity].
  cbn [mbind option_bind]. now rewrite Hfw.
Qed.

Lemma DenseBlock_splits_witness :
  children (DenseBlock (1 + 3) 64 32)
  = children (DenseBlock 1 64 32) ++ children (DenseBlock 3 (64 + 1 * 32) 32)
  /\ forward (train true (DenseBlock (1 + 3) 64 32))
       (mkTensor [2; 64; 7; 7] (Input 0))
     = forward (train true (DenseBlock 1 64 32))
         (mkTensor [2; 64; 7; 7] (Input 0))
       ≫= forward (train true (DenseBlock 3 (64 + 1 * 32) 32)).
Proof.
  exact (DenseBlock_splits true 1 3 64 32 (mkTensor [2; 64; 7; 7] (Input 0))
           ltac:(lia) ltac:(lia) ltac:(lia) ltac:(lia) ltac:(lia)).
Defined.

(** *** The initialisation pass and the mode leave the layers alone *)



(** ** Further properties of Set_Class_Names *)

Lemma getlines_line (l rest : string) :
  no_newline l = true ->
  getlines (l ++ String newline rest)%string = l :: getlines rest.
Proof.
  induction l as [|c l IH]; intros Hl.
  - cbn [String.append getlines]. now rewrite Ascii.eqb_refl.
  - cbn [no_newline] in Hl. apply andb_true_iff in Hl as [Hc Hl].
    cbn [String.append getlines].
    destruct (Ascii.eqb c newline); [discriminate|].
    now rewrite IH.
Qed.

Lemma getlines_unlines (ls : list string) :
  Forall (fun l => no_newline l = true) ls -> getlines (unlines ls) = ls.
Proof.
  induction 1 as [|l ls Hl _ IH]; [reflexivity|].
  cbn [unlines foldr]. fold (unlines ls). now rewrite getlines_line, IH.
Qed.

Lemma getlines_last_line (l : string) :
  l <> EmptyString -> no_newline l = true -> getlines l = [l].
Proof.
  induction l as [|c l IH]; intros Hne Hl; [contradiction|].
  cbn [no_newline] in Hl. apply andb_true_iff in Hl as [Hc Hl].
  cbn [getlines]. destruct (Ascii.eqb c newline); [discriminate|].
  destruct l as [|c' l]; [reflexivity|].
  now rewrite IH.
Qed.

Lemma string_append_assoc (a b c : string) :
  ((a ++ b) ++ c = a ++ (b ++ c))%string.
Proof.
  induction a as [|x a IH]; [reflexivity|].
  cbn [String.append]. now rewrite IH.
Qed.

Lemma getlines_unlines_last (ls : list string) (l : string) :
  Forall (fun l => no_newline l = true) ls ->
  l <> EmptyString -> no_newline l = true ->
  getlines (unlines ls ++ l)%string = ls ++ [l].
Proof.
  intros Hls Hne Hl. induction Hls as [|l0 ls Hl0 _ IH].
  - cbn [unlines foldr String.append app]. now apply getlines_last_line.
  - cbn [unlines foldr]. fold (unlines ls).
    rewrite string_append_assoc. cbn [String.append].
    now rewrite getlines_line, IH.
Qed.

(** X7.  Reading a file line by line gives back its lines: for lines
    without newline, each ended by a newline, [getline] delivers exactly
    these lines, empty ones included; and a last line that is not ended by
    a newline is delivered all the same. *)
Theorem getlines_roundtrip (ls : list string) :
  Forall (fun l => no_newline l = true) ls ->
  getlines (unlines ls) = ls
  /\ (forall l, l <> EmptyString -> no_newline l = true ->
        getlines (unlines ls ++ l)%string = ls ++ [l]).
Proof.
  intros Hls. split; [now apply getlines_unlines|].
  intros l Hne Hl. now apply getlines_unlines_last.
Qed.

Lemma getlines_roundtrip_witness :
  getlines (unlines ["rose"; ""; "iris"]) = ["rose"; ""; "iris"]
  /\ (forall l, l <> EmptyString -> no_newline l = true ->
        getlines (unlines ["rose"; ""; "iris"] ++ l)%string
        = ["rose"; ""; "iris"] ++ [l]).
Proof.
  exact (getlines_roundtrip ["rose"; ""; "iris"]
           ltac:(repeat constructor)).
Defined.

Lemma read_class_names_skip (ls1 ls2 : list string) (s : string)
    (class_names : list string) (i : Z) :
  long_line s = false ->
  read_class_names (ls1 ++ s :: ls2) class_names i
  = read_class_names (ls1 ++ ls2) class_names i.
Proof.
  intros Hs. revert class_names i.
  induction ls1 as [|l ls1 IH]; intros class_names i.
  - cbn [app read_class_names]. fold (long_line s). now rewrite Hs.
  - cbn [app read_class_names]. rewrite !IH. reflexivity.
Qed.

(** X8.  Lines of at most two characters do not count: adding such a line
    (a blank line, say) anywhere in the class name file changes neither
    the names returned nor the way the call ends. *)
Theorem Set_Class_Names_skips_short_lines (ls1 ls2 : list string)
    (s : string) (class_num : Z) :
  Forall (fun l => no_newline l = true) (ls1 ++ s :: ls2) ->
  (String.length s <= 2)%nat ->
  Set_Class_Names (Some (unlines (ls1 ++ s :: ls2))) class_num
  = Set_Class_Names (Some (unlines (ls1 ++ ls2))) class_num.
Proof.
  intros Hls Hs.
  assert (Hls' : Forall (fun l => no_newline l = true) (ls1 ++ ls2)).
  { apply Forall_app in Hls as [H1 H2]. apply Forall_cons in H2 as [_ H2].
    apply Forall_app. now split. }
  assert (Hshort : long_line s = false).
  { unfold long_line. destruct (Z.ltb_spec 2 (Z.of_nat (String.length s)));
      [lia | reflexivity]. }
  unfold Set_Class_Names.
  rewrite !getlines_unlines by assumption.
  now rewrite read_class_names_skip.
Qed.

Lemma Set_Class_Names_skips_short_lines_witness :
  Set_Class_Names (Some (unlines (["rose"] ++ "" :: ["iris"]))) 2
  = Set_Class_Names (Some (unlines (["rose"] ++ ["iris"]))) 2.
Proof.
  exact (Set_Class_Names_skips_short_lines ["rose"] ["iris"] "" 2
           ltac:(repeat constructor) ltac:(simpl; lia)).
Defined.




(** ** Further properties of main *)

Section TrainingProperties.

Variable E : environment.

Lemma foldl_train_batch_full (bs : list batch) (st : state E)
    (s : spec_float) (out : list event) :
  net_is_training (net st) = true ->
  foldl (train_batch E) (st, s, out) bs
  = (mkState E (net st) (weights_after E (w st) bs) (train_passes st)
       (valid_passes st) (train_loss_ave st) (train_epochs st),
     training_loss_sum E (w st) s bs,
     out ++ flat_map (training_events true) bs).
Proof.
  revert st s out. induction bs as [|b bs IH]; intros st s out Hmode.
  - destruct st. cbn. now rewrite app_nil_r.
  - cbn [foldl]. unfold train_batch at 2. rewrite IH by exact Hmode.
    cbn [net w train_passes valid_passes train_loss_ave train_epochs
         weights_after foldl training_loss_sum flat_map].
    rewrite Hmode, <- app_assoc. reflexivity.
Qed.

Lemma train_epoch_full (total_iter total_epoch : Z) (st : state E)
    (epoch : Z) :
  let bs := dataloader E (train_passes st) in
  let avg := epoch_avg_loss E total_iter (w st) bs in
  train_epoch E total_iter total_epoch st epoch
  = (mkState E (DensNet_train true (net st)) (weights_after E (w st) bs)
       (S (train_passes st)) (valid_passes st)
       (train_loss_ave st ++ [avg])
       (train_epochs st ++ [float.of_Z_via_double epoch]),
     [net_train;
      cout_str ("--------------- Training --------------------" ++ endl)%string]
     ++ flat_map (training_events true) bs
     ++ [cout_str "epoch: "; cout_size epoch; cout_str "/";
         cout_size total_epoch; cout_str ", avg_loss: ";
         cout_float avg; cout_str endl]).
Proof.
  intros bs avg. unfold train_epoch. cbn [train_passes].
  rewrite foldl_train_batch_full by reflexivity.
  cbn [net w train_passes valid_passes train_loss_ave train_epochs].
  rewrite <- app_assoc. reflexivity.
Qed.

Lemma validation_keeps (st : state E) :
  w (fst (validation E st)) = w st
  /\ train_passes (fst (validation E st)) = train_passes st
  /\ train_loss_ave (fst (validation E st)) = train_loss_ave st
  /\ train_epochs (fst (validation E st)) = train_epochs st.
Proof.
  unfold validation.
  destruct (foldl _ _ _) as [[[it tl] [m c]] out]. repeat split.
Qed.

Lemma epoch_body_bookkeeping (valid : bool) (total_iter total_epoch : Z)
    (st : state E) (epoch : Z) :
  let st' := fst (epoch_body E valid total_iter total_epoch st epoch) in
  let bs := dataloader E (train_passes st) in
  w st' = weights_after E (w st) bs
  /\ train_passes st' = S (train_passes st)
  /\ train_loss_ave st'
     = train_loss_ave st ++ [epoch_avg_loss E total_iter (w st) bs]
  /\ train_epochs st' = train_epochs st ++ [float.of_Z_via_double epoch].
Proof.
  intros st' bs. subst st'. unfold epoch_body.
  rewrite train_epoch_full. fold bs.
  destruct (valid && (epoch mod 5 =? 0)).
  - match goal with
    | |- context [validation E ?s] =>
        pose proof (validation_keeps s) as (Hw & Hp & Hl & He);
        destruct (validation E s) as [st2 out2]
    end.
    cbn [fst] in *. rewrite Hw, Hp, Hl, He. repeat split.
  - cbn [fst]. repeat split.
Qed.

Lemma epoch_loop_bookkeeping_list (valid : bool) (total_iter total_epoch : Z)
    (epochs : list Z) (st : state E) (out : list event) :
  let st' :=
    fst (foldl
           (fun acc epoch =>
              let '(st, out) := acc in
              let '(st, out') :=
                epoch_body E valid total_iter total_epoch st epoch in
              (st, out ++ out'))
           (st, out) epochs) in
  w st' = weights_after_passes E (w st)
            (seq (train_passes st) (length epochs))
  /\ train_passes st' = (train_passes st + length epochs)%nat
  /\ length (train_loss_ave st')
     = (length (train_loss_ave st) + length epochs)%nat
  /\ train_epochs st'
     = train_epochs st ++ map float.of_Z_via_double epochs.
Proof.
  revert st out. induction epochs as [|epoch epochs IH]; intros st out.
  - cbn. rewrite app_nil_r. repeat split; lia.
  - cbn [foldl].
    pose proof (epoch_body_bookkeeping valid total_iter total_epoch st epoch)
      as (Hw & Hp & Hl & He).
    destruct (epoch_body E valid total_iter total_epoch st epoch)
      as [st1 out1].
    cbn [fst] in Hw, Hp, Hl, He.
    specialize (IH st1 (out ++ out1)). cbv zeta in IH.
    destruct IH as (IHw & IHp & IHl & IHe).
    cbv zeta. rewrite IHw, IHp, IHl, IHe, Hw, Hp, Hl, He.
    rewrite length_app. cbn [length seq map weights_after_passes foldl].
    rewrite <- app_assoc. repeat split; lia.
Qed.

End TrainingProperties.

(** X10.  One epoch of training makes one optimizer step per delivered
    batch, in order, each loss being computed with the weights the steps
    before it have left.  The average it prints and appends to
    [train_loss_ave] is the [float] sum of these losses divided by
    [total_iter], whatever the number of batches delivered; [train_epochs]
    receives the epoch number. *)
Theorem train_epoch_result (E : environment) (total_iter total_epoch : Z)
    (st : state E) (epoch : Z) :
  let bs := dataloader E (train_passes st) in
  let avg :=
    float.div (training_loss_sum E (w st) float.zero bs)
              (float.of_Z total_iter) in
  train_epoch E total_iter total_epoch st epoch
  = (mkState E (DensNet_train true (net st)) (weights_after E (w st) bs)
       (S (train_passes st)) (valid_passes st)
       (train_loss_ave st ++ [avg])
       (train_epochs st ++ [float.of_Z_via_double epoch]),
     [net_train;
      cout_str ("--------------- Training --------------------" ++ endl)%string]
     ++ flat_map (training_events true) bs
     ++ [cout_str "epoch: "; cout_size epoch; cout_str "/";
         cout_size total_epoch; cout_str ", avg_loss: ";
         cout_float avg; cout_str endl]).
Proof. apply train_epoch_full. Qed.

(** X11.  The validation never interferes with the training: after the
    epoch loop the weights are those reached by stepping through the
    batches of all epochs in order, with or without validation;
    [train_loss_ave] has grown by one entry per epoch and [train_epochs] by
    the epoch numbers, so the two vectors handed to the plot have the same
    length: 20 in [main]. *)
Theorem epoch_loop_bookkeeping (E : environment) (valid : bool)
    (total_iter start_epoch total_epoch : Z) (st : state E) :
  let epochs := seqZ start_epoch (total_epoch + 1 - start_epoch) in
  let st' :=
    fst (epoch_loop E valid total_iter start_epoch total_epoch st) in
  w st' = weights_after_passes E (w st)
            (seq (train_passes st) (length epochs))
  /\ train_passes st' = (train_passes st + length epochs)%nat
  /\ length (train_loss_ave st')
     = (length (train_loss_ave st) + length epochs)%nat
  /\ train_epochs st' = train_epochs st ++ map float.of_Z_via_double epochs
  /\ length (train_epochs st')
     = (length (train_epochs st) + length epochs)%nat
  /\ (start_epoch = 1 -> total_epoch = 20 -> length epochs = 20%nat).
Proof.
  intros epochs st'. subst st'. unfold epoch_loop. fold epochs.
  pose proof (epoch_loop_bookkeeping_list E valid total_iter total_epoch
                epochs st []) as H.
  cbv zeta in H. destruct H as (Hw & Hp & Hl & He).
  split; [exact Hw|]. split; [exact Hp|]. split; [exact Hl|].
  split; [exact He|]. split.
  - now rewrite He, length_app, length_map.
  - intros -> ->. reflexivity.
Qed.

(** *** Sums of the per-class counters *)

Lemma vector_sum_map_add {A : Type} (f g : A -> Z) (l : list A) :
  vector_sum (map (fun c => f c + g c) l)
  = vector_sum (map f l) + vector_sum (map g l).
Proof.
  unfold vector_sum.
  induction l as [|a l IH]; [reflexivity|].
  cbn [map foldr] in *. lia.
Qed.

Lemma vector_sum_indicator (a s n : nat) :
  vector_sum (map (fun c => if (c =? a)%nat then 1 else 0) (seq s n))
  = if ((s <=? a) && (a <? s + n))%nat then 1 else 0.
Proof.
  revert s. induction n as [|n IH]; intros s.
  - change (vector_sum (map (fun c => if (c =? a)%nat then 1 else 0)
                          (seq s 0))) with 0.
    destruct (Nat.leb_spec s a), (Nat.ltb_spec a (s + 0)); cbn [andb];
      first [reflexivity | lia].
  - change (vector_sum (map (fun c => if (c =? a)%nat then 1 else 0)
                          (seq s (S n))))
      with ((if (s =? a)%nat then 1 else 0)
            + vector_sum (map (fun c => if (c =? a)%nat then 1 else 0)
                            (seq (S s) n))).
    rewrite IH.
    destruct (Nat.eqb_spec s a) as [->|Hne].
    + rewrite Nat.leb_refl.
      destruct (Nat.leb_spec (S a) a); [lia|].
      destruct (Nat.ltb_spec a (a + S n)); [|lia]. reflexivity.
    + destruct (Nat.leb_spec (S s) a), (Nat.leb_spec s a); try lia;
        cbn [andb];
        destruct (Nat.ltb_spec a (S s + n)), (Nat.ltb_spec a (s + S n));
        first [reflexivity | lia].
Qed.

Lemma vector_sum_counts (P : batch -> bool) (class_num : Z)
    (bs : list batch) :
  Forall (test_sample class_num) bs ->
  vector_sum
    (map (fun c => Z.of_nat
                     (length (List.filter (fun b => labelled c b && P b) bs)))
       (seq 0 (Z.to_nat class_num)))
  = Z.of_nat (length (List.filter P bs)).
Proof.
  induction 1 as [|b bs (a & Hlab & Ha) _ IH].
  - cbn [List.filter length]. induction (seq 0 (Z.to_nat class_num));
      [reflexivity | assumption].
  - cbn [List.filter].
    assert (Hans : answer_of b = a) by (unfold answer_of; now rewrite Hlab).
    rewrite (map_ext _
      (fun c => (if (c =? Z.to_nat a)%nat then (if P b then 1 else 0) else 0)
                + Z.of_nat (length (List.filter
                                      (fun b => labelled c b && P b) bs)))).
    2:{ intros c. unfold labelled at 1. rewrite Hans.
        destruct (Z.eqb_spec a (Z.of_nat c)), (Nat.eqb_spec c (Z.to_nat a));
          try lia; cbn [andb]; [|lia].
        destruct (P b); cbn [length]; lia. }
    rewrite vector_sum_map_add, IH.
    rewrite (map_ext _
      (fun c => (if P b then 1 else 0)
                * (if (c =? Z.to_nat a)%nat then 1 else 0))).
    2:{ intros c. destruct (c =? Z.to_nat a)%nat, (P b); reflexivity. }
    assert (Hscale : forall (k : Z) (f : nat -> Z) l,
              vector_sum (map (fun c => k * f c) l) = k * vector_sum (map f l)).
    { intros k f l. unfold vector_sum.
      induction l as [|c l IHl]; [cbn; lia|].
      cbn [map foldr] in *. lia. }
    rewrite Hscale, vector_sum_indicator.
    destruct (Nat.leb_spec 0 (Z.to_nat a)); [|lia].
    destruct (Nat.ltb_spec (Z.to_nat a) (0 + Z.to_nat class_num)); [|lia].
    cbn [andb]. destruct (P b); cbn [length]; lia.
Qed.

Lemma not_in_test_events (E : environment) (ww : weights E)
    (class_names : list string) (n : nat) (bs : list batch) (e : event) :
  In e [zero_grad; backward; optimizer_step; net_train] ->
  ~ In e (test_events E ww class_names n bs).
Proof.
  intros He Hin. unfold test_events in Hin.
  rewrite !in_app_iff in Hin.
  assert (Hcase : e = zero_grad \/ e = backward \/ e = optimizer_step
                  \/ e = net_train).
  { cbn [In] in He. intuition auto. }
  destruct Hin as [H|[H|[H|[H|H]]]].
  - cbn [In] in H. intuition (subst; discriminate).
  - apply in_flat_map in H as (b & _ & Hb). cbn [evaluation_events In] in Hb.
    intuition (subst; discriminate).
  - cbn [In] in H. intuition (subst; discriminate).
  - apply in_flat_map in H as (c & _ & Hc). cbn [report_events In] in Hc.
    intuition (subst; discriminate).
  - cbn [In] in H. intuition (subst; discriminate).
Qed.

(** X12.  When the validation loader delivers no batch, the validation
    divides 0 by 0: the accuracy it prints is a NaN. *)
Theorem validation_without_batches (E : environment) (st : state E) :
  valid_dataloader E (valid_passes st) = [] ->
  snd (validation E st)
  = [cout_str ("--------------- validation --------------------" ++ endl)%string;
     net_eval;
     cout_str (endl ++ "Validation accuracy: ")%string;
     cout_float S754_nan; cout_str endl].
Proof.
  intros Hempty. unfold validation. rewrite Hempty. reflexivity.
Qed.

Lemma validation_without_batches_witness :
  snd (validation idle_environment idle_state)
  = [cout_str ("--------------- validation --------------------" ++ endl)%string;
     net_eval;
     cout_str (endl ++ "Validation accuracy: ")%string;
     cout_float S754_nan; cout_str endl].
Proof.
  exact (validation_without_batches idle_environment idle_state eq_refl).
Defined.

(** X13.  The counters of the test block are consistent: the per-class
    counts add up to the totals ([counter] is the number of test samples
    and the sum of [class_counter], [match] is the sum of [class_match]),
    no class has more matches than samples, and the overall accuracy
    printed last is [(float) match / (float) counter]. *)
Theorem test_counters_consistent (E : environment) (class_num : Z)
    (class_names : list string) (st : state E) :
  0 <= class_num ->
  length class_names = Z.to_nat class_num ->
  Forall (test_sample class_num) (test_dataloader E) ->
  Z.of_nat (length (test_dataloader E)) < 2 ^ 64 ->
  exists st' t out,
    test_phase E class_num class_names st = Some (st', t, out)
    /\ counter t = Z.of_nat (length (test_dataloader E))
    /\ vector_sum (class_counter t) = counter t
    /\ vector_sum (class_match t) = match_ t
    /\ 0 <= match_ t <= counter t
    /\ (forall (c : nat) m n,
          class_match t !! c = Some m -> class_counter t !! c = Some n ->
          0 <= m <= n)
    /\ (exists before,
          out = before
                ++ [cout_str (endl ++ "Test accuracy: ")%string;
                    cout_float (float.div (float.of_Z (match_ t))
                                          (float.of_Z (counter t)));
                    cout_str endl]).
Proof.
  intros Hn Hnames Hok Hlen.
  eexists _, _, _. split; [apply test_phase_spec; assumption|].
  unfold test_vars_after. cbn [counter match_ class_counter class_match].
  split; [reflexivity|].
  split.
  { transitivity
      (Z.of_nat (length (List.filter (fun _ : batch => true)
                           (test_dataloader E)))).
    - rewrite <- (vector_sum_counts (fun _ => true) class_num) by assumption.
      f_equal. apply map_ext. intros c. unfold count_labelled. do 2 f_equal.
      apply List.filter_ext. intros b. now rewrite andb_true_r.
    - do 2 f_equal. generalize (test_dataloader E) as l.
      induction l as [|b l IH]; [reflexivity|].
      cbn [List.filter]. now rewrite IH. }
  split.
  { unfold count_hits.
    rewrite <- (vector_sum_counts (recognised E (w st)) class_num)
      by assumption.
    reflexivity. }
  split.
  { pose proof (count_hits_le E (w st) (test_dataloader E)). lia. }
  split.
  { intros c m n Hm Hc.
    change (map ?g ?l) with (g <$> l) in Hm, Hc.
    rewrite list_lookup_fmap in Hm, Hc.
    destruct (seq 0 (Z.to_nat class_num) !! c) as [c'|]; [|discriminate].
    cbn in Hm, Hc. injection Hm as <-. injection Hc as <-.
    pose proof (count_recognised_le E (w st) c' (test_dataloader E)). lia. }
  unfold test_events.
  match goal with
  | |- exists before, ?A ++ ?B ++ ?C ++ ?D ++ ?L = _ =>
      exists (A ++ B ++ C ++ D)
  end.
  now rewrite <- !app_assoc.
Qed.

Lemma test_counters_consistent_witness :
  exists st' t out,
    test_phase small_environment 2 ["abc"; "def"] small_state
    = Some (st', t, out)
    /\ counter t = Z.of_nat (length (test_dataloader small_environment))
    /\ vector_sum (class_counter t) = counter t
    /\ vector_sum (class_match t) = match_ t
    /\ 0 <= match_ t <= counter t
    /\ (forall (c : nat) m n,
          class_match t !! c = Some m -> class_counter t !! c = Some n ->
          0 <= m <= n)
    /\ (exists before,
          out = before
                ++ [cout_str (endl ++ "Test accuracy: ")%string;
                    cout_float (float.div (float.of_Z (match_ t))
                                          (float.of_Z (counter t)));
                    cout_str endl]).
Proof.
  exact (test_counters_consistent small_environment 2 ["abc"; "def"]
           small_state ltac:(lia) eq_refl
           ltac:(repeat constructor; exists 0; split; [reflexivity | lia])
           ltac:(vm_compute; reflexivity)).
Defined.

(** X14.  The test block only evaluates: it puts the network in
    evaluation mode, never calls [zero_grad], [backward],
    [optimizer.step()] or [train()], and leaves the weights and the
    training records as they were. *)
Theorem test_phase_only_evaluates (E : environment) (class_num : Z)
    (class_names : list string) (st : state E) :
  0 <= class_num ->
  length class_names = Z.to_nat class_num ->
  Forall (test_sample class_num) (test_dataloader E) ->
  Z.of_nat (length (test_dataloader E)) < 2 ^ 64 ->
  exists st' t out,
    test_phase E class_num class_names st = Some (st', t, out)
    /\ w st' = w st
    /\ net st' = DensNet_eval (net st)
    /\ Forall (fun m => is_training m = false) (DensNet_modules (net st'))
    /\ train_loss_ave st' = train_loss_ave st
    /\ train_epochs st' = train_epochs st
    /\ (forall e, In e [zero_grad; backward; optimizer_step; net_train] ->
          ~ In e out)
    /\ (forall training b, In (net_forward training b) out ->
          training = false /\ In b (test_dataloader E)).
Proof.
  intros Hn Hnames Hok Hlen.
  eexists _, _, _. split; [apply test_phase_spec; assumption|].
  cbn [w net train_loss_ave train_epochs].
  split; [reflexivity|]. split; [reflexivity|].
  split.
  { unfold DensNet_modules, DensNet_eval, DensNet_train.
    cbn [features classifier]. apply Forall_app. split; apply modules_train. }
  split; [reflexivity|]. split; [reflexivity|].
  split; [intros e He; now apply not_in_test_events|].
  intros training b Hin. unfold test_events in Hin.
  rewrite !in_app_iff in Hin. destruct Hin as [H|[H|[H|[H|H]]]].
  - cbn [In] in H. intuition discriminate.
  - apply in_flat_map in H as (b' & Hb' & Hb).
    cbn [evaluation_events In] in Hb.
    destruct Hb as [Hb|[Hb|[Hb|[]]]]; try discriminate.
    injection Hb as <- <-. now split.
  - cbn [In] in H. intuition discriminate.
  - apply in_flat_map in H as (c & _ & Hc). cbn [report_events In] in Hc.
    intuition discriminate.
  - cbn [In] in H. intuition discriminate.
Qed.

Lemma test_phase_only_evaluates_witness :
  exists st' t out,
    test_phase small_environment 2 ["abc"; "def"] small_state
    = Some (st', t, out)
    /\ w st' = w small_state
    /\ net st' = DensNet_eval (net small_state)
    /\ Forall (fun m => is_training m = false) (DensNet_modules (net st'))
    /\ train_loss_ave st' = train_loss_ave small_state
    /\ train_epochs st' = train_epochs small_state
    /\ (forall e, In e [zero_grad; backward; optimizer_step; net_train] ->
          ~ In e out)
    /\ (forall training b, In (net_forward training b) out ->
          training = false /\ In b (test_dataloader small_environment)).
Proof.
  exact (test_phase_only_evaluates small_environment 2 ["abc"; "def"]
           small_state ltac:(lia) eq_refl
           ltac:(repeat constructor; exists 0; split; [reflexivity | lia])
           ltac:(vm_compute; reflexivity)).
Defined.

(** X15.  With an empty test loader the test block still reports: every
    per-class accuracy and the overall accuracy are 0 / 0, NaN, and
    [ave_loss] is 0 divided by the size of the training set. *)
Theorem test_phase_without_samples (E : environment) (class_num : Z)
    (class_names : list string) (st : state E) :
  test_dataloader E = [] ->
  0 <= class_num ->
  length class_names = Z.to_nat class_num ->
  exists st' t out before,
    test_phase E class_num class_names st = Some (st', t, out)
    /\ counter t = 0 /\ match_ t = 0
    /\ class_accuracy t = replicate (Z.to_nat class_num) S754_nan
    /\ ave_loss t = float.div float.zero (float.of_Z (dataset_size E))
    /\ out = before
             ++ [cout_str (endl ++ "Test accuracy: ")%string;
                 cout_float S754_nan; cout_str endl].
Proof.
  intros Hempty Hn Hnames.
  rewrite test_phase_spec
    by first [assumption | rewrite Hempty; first [constructor | cbn; lia]].
  rewrite Hempty.
  do 3 eexists.
  exists ([cout_str "total test images : "; cout_size (test_dataset_size E);
           cout_str endl; cout_str endl; net_eval]
          ++ [cout_str ("Test accuracy ==========" ++ endl)%string]
          ++ flat_map (report_events E (w st) class_names [])
               (seq 0 (Z.to_nat class_num))).
  split; [reflexivity|].
  unfold test_vars_after, test_events, loss_sum_of.
  cbn [counter match_ class_accuracy ave_loss map foldl length
       count_hits List.filter flat_map].
  rewrite Nat.sub_diag. cbn [replicate]. rewrite app_nil_r.
  rewrite (map_constant S754_nan) by reflexivity. rewrite length_seq.
  repeat split.
Qed.

Lemma test_phase_without_samples_witness :
  exists st' t out before,
    test_phase idle_environment 2 ["abc"; "def"] idle_state
    = Some (st', t, out)
    /\ counter t = 0 /\ match_ t = 0
    /\ class_accuracy t = replicate (Z.to_nat 2) S754_nan
    /\ ave_loss t
       = float.div float.zero (float.of_Z (dataset_size idle_environment))
    /\ out = before
             ++ [cout_str (endl ++ "Test accuracy: ")%string;
                 cout_float S754_nan; cout_str endl].
Proof.
  exact (test_phase_without_samples idle_environment 2 ["abc"; "def"]
           idle_state eq_refl ltac:(lia) eq_refl).
Defined.

